(** * A shallow embedding of the fact-checking pipeline backend

    The development follows the three Python modules of the backend:
    [scraper.py] (platform detection, the dispatcher and the retrievers),
    [claims.py] (the call to the language model and the parsing of its
    reply) and [main.py] (the [/analyze] request handler).

    Conventions.
    - A Python [str] is a [string]; a character is a code point below 256.
      The case maps, the white space class and the word class are Python's,
      restricted to that range (where [str.lower] stays in range).
    - A Python value whose type the code does not fix (a decoded JSON
      document, the dictionary of the metadata tool) is a [pyval].
    - A raised exception is an [exn]: its class and its message.  A
      computation returns an [outcome].
    - Code that talks to the outside (HTTP, the browser, the language model,
      standard output) runs in the monad [M], which threads the log of the
      external calls made so far; what the outside answers is given by a
      [World], each answer depending on the number of calls made before. *)

From Stdlib Require Import String Ascii List ZArith Bool.
From Stdlib Require Import DecimalString FinFun Lia.
#[local] Set Warnings "-abstract-large-number".
Import ListNotations.
Open Scope string_scope.

(* ------------------------------------------------------------------ *)
(** * Python strings *)
(* ------------------------------------------------------------------ *)

Module PyStr.

Local Open Scope nat_scope.

Definition code (c : ascii) : nat := nat_of_ascii c.

Definition between (lo hi n : nat) : bool := (lo <=? n) && (n <=? hi).

(** [str.lower] on one character: A-Z and the upper-case letters of the
    Latin-1 supplement (all of 192..222 but the multiplication sign). *)
Definition lower_char (c : ascii) : ascii :=
  let n := code c in
  if between 65 90 n || (between 192 222 n && negb (n =? 215))
  then ascii_of_nat (n + 32) else c.

Fixpoint lower (s : string) : string :=
  match s with
  | EmptyString => EmptyString
  | String c r => String (lower_char c) (lower r)
  end.

(** [str.isspace] on one character. *)
Definition is_space (c : ascii) : bool :=
  let n := code c in
  between 9 13 n || between 28 32 n || (n =? 133) || (n =? 160).

(** The characters of [_WHATWG_C0_CONTROL_OR_SPACE]. *)
Definition is_c0_or_space (c : ascii) : bool := code c <=? 32.

Definition is_ascii_alpha (c : ascii) : bool :=
  let n := code c in between 65 90 n || between 97 122 n.

Definition is_digit (c : ascii) : bool := between 48 57 (code c).

Definition is_hex (c : ascii) : bool :=
  let n := code c in between 48 57 n || between 65 70 n || between 97 102 n.

(** The regular expression class [\w] on a [str] pattern. *)
Definition is_word (c : ascii) : bool :=
  let n := code c in
  is_ascii_alpha c || is_digit c || (n =? 95)
  || (n =? 170) || (n =? 178) || (n =? 179) || (n =? 181) || (n =? 185)
  || (n =? 186) || between 188 190 n
  || between 192 214 n || between 216 246 n || between 248 255 n.

(** Letters with a case, for [str.title]. *)
Definition is_cased (c : ascii) : bool :=
  let n := code c in
  is_ascii_alpha c || (n =? 170) || (n =? 181) || (n =? 186)
  || between 192 214 n || between 216 246 n || between 248 255 n.

(** [str.title] maps a cased letter that follows an uncased character to
    title case.  Title case leaves the range for three letters (181, 223,
    255), which the embedding leaves unchanged; the code only ever
    title-cases a platform identifier. *)
Definition title_char (c : ascii) : ascii :=
  let n := code c in
  if between 97 122 n || (between 224 254 n && negb (n =? 247))
  then ascii_of_nat (n - 32) else c.

Fixpoint title_from (prev_cased : bool) (s : string) : string :=
  match s with
  | EmptyString => EmptyString
  | String c r =>
      String (if prev_cased then lower_char c else title_char c)
             (title_from (is_cased c) r)
  end.

Definition title (s : string) : string := title_from false s.

Fixpoint lstrip_with (p : ascii -> bool) (s : string) : string :=
  match s with
  | EmptyString => EmptyString
  | String c r => if p c then lstrip_with p r else s
  end.

Fixpoint rstrip_with (p : ascii -> bool) (s : string) : string :=
  match s with
  | EmptyString => EmptyString
  | String c r =>
      match rstrip_with p r with
      | EmptyString => if p c then EmptyString else String c EmptyString
      | r' => String c r'
      end
  end.

(** [s.strip()] *)
Definition strip (s : string) : string :=
  rstrip_with is_space (lstrip_with is_space s).

Fixpoint remove_char (p : ascii -> bool) (s : string) : string :=
  match s with
  | EmptyString => EmptyString
  | String c r => if p c then remove_char p r else String c (remove_char p r)
  end.

Fixpoint all_chars (p : ascii -> bool) (s : string) : bool :=
  match s with
  | EmptyString => true
  | String c r => p c && all_chars p r
  end.

Fixpoint drop (n : nat) (s : string) : string :=
  match n, s with
  | O, _ => s
  | S _, EmptyString => EmptyString
  | S m, String _ r => drop m r
  end.

Fixpoint take (n : nat) (s : string) : string :=
  match n, s with
  | O, _ => EmptyString
  | S _, EmptyString => EmptyString
  | S m, String c r => String c (take m r)
  end.

(** [s.startswith(p)] *)
Definition startswith (p s : string) : bool := prefix p s.

(** [s.find(p)]: the index of the first occurrence. *)
Fixpoint find (p s : string) : option nat :=
  if prefix p s then Some 0
  else match s with
       | EmptyString => None
       | String _ r => option_map S (find p r)
       end.

(** [p in s] *)
Definition contains (p s : string) : bool :=
  match find p s with Some _ => true | None => false end.

(** [s.rfind(p)]: the index of the last occurrence. *)
Fixpoint rfind (p s : string) : option nat :=
  match s with
  | EmptyString => if prefix p s then Some 0 else None
  | String _ r =>
      match rfind p r with
      | Some i => Some (S i)
      | None => if prefix p s then Some 0 else None
      end
  end.

(** [s.replace(old, new)] for a non-empty [old]: occurrences are replaced
    from the left and do not overlap.  [skip] counts the characters of an
    occurrence still to be passed over. *)
Fixpoint replace_from (skip : nat) (old new s : string) : string :=
  match s with
  | EmptyString => EmptyString
  | String c r =>
      match skip with
      | S k => replace_from k old new r
      | O =>
          if prefix old s
          then new ++ replace_from (String.length old - 1) old new r
          else String c (replace_from 0 old new r)
      end
  end.

Definition replace (old new s : string) : string := replace_from 0 old new s.

(** [s.split(sep, 1)]: one element when [sep] does not occur, else two. *)
Definition split1 (sep s : string) : list string :=
  match find sep s with
  | None => [s]
  | Some i => [take i s; drop (i + String.length sep) s]
  end.

(** [s.rsplit(sep, 1)] *)
Definition rsplit1 (sep s : string) : list string :=
  match rfind sep s with
  | None => [s]
  | Some i => [take i s; drop (i + String.length sep) s]
  end.

(** [s.split(sep)[0]] *)
Definition split_head (sep s : string) : string :=
  match find sep s with
  | None => s
  | Some i => take i s
  end.

(** [s.rpartition(sep)[2]] *)
Definition rpartition_tail (sep s : string) : string :=
  match rfind sep s with
  | None => s
  | Some i => drop (i + String.length sep) s
  end.

Definition eqb_ci (a b : ascii) : bool :=
  Ascii.eqb (lower_char a) (lower_char b).

(** [p] is a prefix of [s] up to the case of ASCII letters. *)
Fixpoint prefix_ci (p s : string) : bool :=
  match p, s with
  | EmptyString, _ => true
  | String a p', String b s' => eqb_ci a b && prefix_ci p' s'
  | String _ _, EmptyString => false
  end.

Definition nl : string := String (ascii_of_nat 10) EmptyString.

(** Decimal rendering of a number, as [str(n)] does. *)
Definition of_nat (n : nat) : string := NilEmpty.string_of_uint (Nat.to_uint n).
Definition of_Z (z : Z) : string := NilEmpty.string_of_int (Z.to_int z).

End PyStr.

Import PyStr.

(* ------------------------------------------------------------------ *)
(** * Exceptions and outcomes *)
(* ------------------------------------------------------------------ *)

(** The exception classes the code names in a handler or can meet, with the
    part of Python's class hierarchy that relates them. *)
Inductive exn_class : Type :=
| KeyboardInterrupt          (* a BaseException that is no Exception *)
| OtherException             (* any further subclass of Exception *)
| ImportError
| KeyError
| IndexError
| TypeError
| AttributeError
| ValueError
| JSONDecodeError            (* json.JSONDecodeError *)
| RequestException           (* requests.RequestException *)
| RequestsJSONDecodeError    (* requests.exceptions.JSONDecodeError *)
| PlaywrightError            (* playwright.sync_api.Error *)
| PlaywrightTimeoutError.    (* playwright.sync_api.TimeoutError *)

Definition exn_class_eqb (a b : exn_class) : bool :=
  match a, b with
  | KeyboardInterrupt, KeyboardInterrupt
  | OtherException, OtherException
  | ImportError, ImportError
  | KeyError, KeyError
  | IndexError, IndexError
  | TypeError, TypeError
  | AttributeError, AttributeError
  | ValueError, ValueError
  | JSONDecodeError, JSONDecodeError
  | RequestException, RequestException
  | RequestsJSONDecodeError, RequestsJSONDecodeError
  | PlaywrightError, PlaywrightError
  | PlaywrightTimeoutError, PlaywrightTimeoutError => true
  | _, _ => false
  end.

(** The direct base classes within the list above. *)
Definition bases (c : exn_class) : list exn_class :=
  match c with
  | JSONDecodeError => [ValueError]
  | RequestsJSONDecodeError => [RequestException; JSONDecodeError]
  | PlaywrightTimeoutError => [PlaywrightError]
  | _ => []
  end.

(** [issubclass c d], for [d] a class a handler names. *)
Definition issubclass (c d : exn_class) : bool :=
  exn_class_eqb c d
  || existsb (fun b => exn_class_eqb b d
                       || existsb (fun b' => exn_class_eqb b' d) (bases b))
             (bases c).

(** [except Exception] *)
Definition is_Exception (c : exn_class) : bool :=
  negb (exn_class_eqb c KeyboardInterrupt).

Record exn : Type := mk_exn { exn_cls : exn_class; exn_msg : string }.

Inductive outcome (A : Type) : Type :=
| Ret (a : A)
| Raise (e : exn).
Arguments Ret {A} a.
Arguments Raise {A} e.

Definition obind {A B} (o : outcome A) (f : A -> outcome B) : outcome B :=
  match o with
  | Ret a => f a
  | Raise e => Raise e
  end.

Definition raises {A} (o : outcome A) (c : exn_class) : Prop :=
  exists msg, o = Raise (mk_exn c msg).

(* ------------------------------------------------------------------ *)
(** * Python values *)
(* ------------------------------------------------------------------ *)

(** A float is carried by its [repr], which is all the code asks of it. *)
#[local] Set Warnings "-register-all".
Inductive pyval : Type :=
| PNone
| PBool (b : bool)
| PInt (z : Z)
| PFloat (repr : string)
| PStr (s : string)
| PList (l : list pyval)
| PDict (kvs : list (string * pyval)).

Module Py.

(** Truth value of an object. *)
Definition truthy (v : pyval) : bool :=
  match v with
  | PNone => false
  | PBool b => b
  | PInt z => negb (Z.eqb z 0)
  | PFloat r => negb (String.eqb r "0.0" || String.eqb r "-0.0")
  | PStr s => negb (String.eqb s "")
  | PList l => match l with [] => false | _ => true end
  | PDict kvs => match kvs with [] => false | _ => true end
  end.

Fixpoint lookup (k : string) (kvs : list (string * pyval)) : option pyval :=
  match kvs with
  | [] => None
  | (k', v) :: r => if String.eqb k k' then Some v else lookup k r
  end.

(** [d[k] = v] on a dictionary: the binding is replaced in place, or added
    at the end. *)
Fixpoint store (k : string) (v : pyval) (kvs : list (string * pyval))
  : list (string * pyval) :=
  match kvs with
  | [] => [(k, v)]
  | (k', v') :: r =>
      if String.eqb k k' then (k, v) :: r else (k', v') :: store k v r
  end.

Definition type_name (v : pyval) : string :=
  match v with
  | PNone => "NoneType" | PBool _ => "bool" | PInt _ => "int"
  | PFloat _ => "float" | PStr _ => "str" | PList _ => "list"
  | PDict _ => "dict"
  end.

Definition no_attribute (v : pyval) (name : string) : exn :=
  mk_exn AttributeError
         ("'" ++ type_name v ++ "' object has no attribute '" ++ name ++ "'").

Definition not_subscriptable (v : pyval) : exn :=
  mk_exn TypeError ("'" ++ type_name v ++ "' object is not subscriptable").

(** [v.get(k, default)]: only a dictionary has the method. *)
Definition get (v : pyval) (k : string) (default : pyval) : outcome pyval :=
  match v with
  | PDict kvs =>
      Ret (match lookup k kvs with Some x => x | None => default end)
  | _ => Raise (no_attribute v "get")
  end.

(** [v[0]] *)
Definition item0 (v : pyval) : outcome pyval :=
  match v with
  | PList (x :: _) => Ret x
  | PList [] => Raise (mk_exn IndexError "list index out of range")
  | PStr (String c _) => Ret (PStr (String c EmptyString))
  | PStr EmptyString => Raise (mk_exn IndexError "string index out of range")
  | PDict _ => Raise (mk_exn KeyError "0")
  | _ => Raise (not_subscriptable v)
  end.

(** [v[k]] for a string key *)
Definition item (v : pyval) (k : string) : outcome pyval :=
  match v with
  | PDict kvs =>
      match lookup k kvs with
      | Some x => Ret x
      | None => Raise (mk_exn KeyError ("'" ++ k ++ "'"))
      end
  | PList _ =>
      Raise (mk_exn TypeError "list indices must be integers or slices, not str")
  | PStr _ =>
      Raise (mk_exn TypeError "string indices must be integers, not 'str'")
  | _ => Raise (not_subscriptable v)
  end.

(** [v[:n]] *)
Definition slice_to (n : nat) (v : pyval) : outcome pyval :=
  match v with
  | PList l => Ret (PList (firstn n l))
  | PStr s => Ret (PStr (take n s))
  | PDict _ => Raise (mk_exn TypeError "unhashable type: 'slice'")
  | _ => Raise (not_subscriptable v)
  end.

Fixpoint chars (s : string) : list pyval :=
  match s with
  | EmptyString => []
  | String c r => PStr (String c EmptyString) :: chars r
  end.

(** The elements a [for] loop or a generator visits. *)
Definition iter (v : pyval) : outcome (list pyval) :=
  match v with
  | PList l => Ret l
  | PStr s => Ret (chars s)
  | PDict kvs => Ret (map (fun kv => PStr (fst kv)) kvs)
  | _ => Raise (mk_exn TypeError
                       ("'" ++ type_name v ++ "' object is not iterable"))
  end.

(** [v.replace(old, new)]: only a string has the method. *)
Definition str_replace (v : pyval) (old new : string) : outcome string :=
  match v with
  | PStr s => Ret (replace old new s)
  | _ => Raise (no_attribute v "replace")
  end.

Definition hex_digit (n : nat) : ascii :=
  ascii_of_nat (if n <? 10 then 48 + n else 87 + n)%nat.

(** [repr] of a string: the quote is the single quote unless the string
    holds one and no double quote; backslash, the quote, tab, newline and
    carriage return are escaped, and so is every character that is not
    printable. *)
Definition printable (c : ascii) : bool :=
  let n := code c in
  (between 32 126 n || between 161 255 n) && negb (Nat.eqb n 173).

Fixpoint escape (q : ascii) (s : string) : string :=
  match s with
  | EmptyString => EmptyString
  | String c r =>
      let n := code c in
      (if Ascii.eqb c q || Nat.eqb n 92 then String (ascii_of_nat 92) (String c EmptyString)
       else if Nat.eqb n 9 then "\t"
       else if Nat.eqb n 10 then "\n"
       else if Nat.eqb n 13 then "\r"
       else if printable c then String c EmptyString
       else String (ascii_of_nat 92)
              (String "x" (String (hex_digit (n / 16))
                             (String (hex_digit (n mod 16)) EmptyString))))
      ++ escape q r
  end.

Definition dquote : ascii := ascii_of_nat 34.
Definition squote : ascii := ascii_of_nat 39.

Definition repr_str (s : string) : string :=
  let q := if contains (String squote EmptyString) s
              && negb (contains (String dquote EmptyString) s)
           then dquote else squote in
  String q (escape q s ++ String q EmptyString).

(** [repr(v)] *)
Fixpoint repr (v : pyval) : string :=
  match v with
  | PNone => "None"
  | PBool true => "True"
  | PBool false => "False"
  | PInt z => of_Z z
  | PFloat r => r
  | PStr s => repr_str s
  | PList l =>
      "[" ++ (fix items (l : list pyval) : string :=
                match l with
                | [] => ""
                | x :: r =>
                    match r with
                    | [] => repr x
                    | _ => repr x ++ ", " ++ items r
                    end
                end) l ++ "]"
  | PDict kvs =>
      "{" ++ (fix items (l : list (string * pyval)) : string :=
                match l with
                | [] => ""
                | (k, x) :: r =>
                    match r with
                    | [] => repr_str k ++ ": " ++ repr x
                    | _ => repr_str k ++ ": " ++ repr x ++ ", " ++ items r
                    end
                end) kvs ++ "}"
  end.

(** [str(v)], which is also how an f-string renders [v]. *)
Definition str (v : pyval) : string :=
  match v with
  | PStr s => s
  | _ => repr v
  end.

End Py.

(* ------------------------------------------------------------------ *)
(** * Library functions taken as given *)
(* ------------------------------------------------------------------ *)

(** Two pure functions of Python's standard library are parameters of the
    development: whether [ipaddress.ip_address] reads a text as an IPv6
    address, and [json.loads].  Every statement below holds whatever they
    answer. *)
Class PyLib : Type := {
  is_ipv6_address : string -> bool;
  json_loads : string -> outcome pyval
}.

(* ------------------------------------------------------------------ *)
(** * [urllib.parse]: the network location of a URL *)
(* ------------------------------------------------------------------ *)

Section UrlParse.

Context {lib : PyLib}.

Definition invalid_ipv6 : exn := mk_exn ValueError "Invalid IPv6 URL".

Definition is_scheme_char (c : ascii) : bool :=
  is_ascii_alpha c || is_digit c
  || Ascii.eqb c "+" || Ascii.eqb c "-" || Ascii.eqb c ".".

Definition is_unsafe_url_byte (c : ascii) : bool :=
  let n := code c in Nat.eqb n 9 || Nat.eqb n 13 || Nat.eqb n 10.

Definition is_netloc_delim (c : ascii) : bool :=
  Ascii.eqb c "/" || Ascii.eqb c "?" || Ascii.eqb c "#".

(** The longest prefix free of the characters [stop]. *)
Fixpoint span_until (stop : ascii -> bool) (s : string) : string :=
  match s with
  | EmptyString => EmptyString
  | String c r => if stop c then EmptyString else String c (span_until stop r)
  end.

(** [_splitnetloc(url, start)[0]]: from [start] to the first of [/?#]. *)
Definition _splitnetloc (url : string) (start : nat) : string :=
  span_until is_netloc_delim (drop start url).

(** The scheme test of [urlsplit]: the text left once a scheme and its
    colon are taken off. *)
Definition strip_scheme (url : string) : string :=
  match find ":" url, url with
  | Some (S i), String c0 _ =>
      if is_ascii_alpha c0 && all_chars is_scheme_char (take (S i) url)
      then drop (S (S i)) url
      else url
  | _, _ => url
  end.

(** [re.match(r"\Av[a-fA-F0-9]+\..+\Z", hostname)] *)
Definition is_ipvfuture (hostname : string) : bool :=
  match hostname with
  | String "v" r =>
      let r' := lstrip_with is_hex r in
      negb (String.eqb r' r)
      && match r' with
         | String "." (String c t) =>
             all_chars (fun c => negb (Nat.eqb (code c) 10)) (String c t)
         | _ => false
         end
  | _ => false
  end.

Definition _check_bracketed_host (hostname : string) : outcome unit :=
  if startswith "v" hostname then
    if is_ipvfuture hostname then Ret tt
    else Raise (mk_exn ValueError "IPvFuture address is invalid")
  else
    if is_ipv6_address hostname then Ret tt
    else Raise (mk_exn ValueError "not an IPv6 address").

Definition _check_bracketed_netloc (netloc : string) : outcome unit :=
  let hostname_and_port := rpartition_tail "@" netloc in
  match find "[" hostname_and_port with
  | Some i =>
      let before_bracket := take i hostname_and_port in
      let bracketed := drop (S i) hostname_and_port in
      if negb (String.eqb before_bracket "") then Raise invalid_ipv6
      else
        let hostname := split_head "]" bracketed in
        let port := match find "]" bracketed with
                    | Some j => drop (S j) bracketed
                    | None => ""
                    end in
        if negb (String.eqb port "") && negb (startswith ":" port)
        then Raise invalid_ipv6
        else _check_bracketed_host hostname
  | None => _check_bracketed_host (split_head ":" hostname_and_port)
  end.

(** [_checknetloc] rejects a network location with a character whose NFKC
    form holds one of [/?#@:].  No code point below 256 has such a form,
    so the check passes on every string of the embedding. *)
Definition _checknetloc (netloc : string) : outcome unit := Ret tt.

(** [urlparse(url).netloc] *)
Definition urlparse_netloc (url : string) : outcome string :=
  let url := lstrip_with is_c0_or_space url in
  let url := remove_char is_unsafe_url_byte url in
  let url := strip_scheme url in
  if String.eqb (take 2 url) "//" then
    let netloc := _splitnetloc url 2 in
    let lb := contains "[" netloc in
    let rb := contains "]" netloc in
    if (lb && negb rb) || (rb && negb lb) then Raise invalid_ipv6
    else
      obind (if lb && rb then _check_bracketed_netloc netloc else Ret tt)
            (fun _ => obind (_checknetloc netloc) (fun _ => Ret netloc))
  else
    obind (_checknetloc "") (fun _ => Ret "").

(* ------------------------------------------------------------------ *)
(** * [scraper.py]: platform detection *)
(* ------------------------------------------------------------------ *)

(** [x in (a, b, c)] on strings *)
Definition in_tuple (x : string) (t : list string) : bool :=
  existsb (String.eqb x) t.

(** The host the tests of [detect_platform] look at. *)
Definition normalized_host (url : string) : outcome string :=
  obind (urlparse_netloc (lower url))
        (fun netloc => Ret (replace "www." "" netloc)).

Definition platform_of_host (host : string) : string :=
  if in_tuple host ["twitter.com"; "x.com"; "mobile.twitter.com"] then "twitter"
  else if contains "reddit.com" host then "reddit"
  else if in_tuple host ["youtube.com"; "youtu.be"; "m.youtube.com"] then "youtube"
  else if contains "instagram.com" host then "instagram"
  else if contains "facebook.com" host || String.eqb host "fb.com" then "facebook"
  else "unknown".

Definition detect_platform (url : string) : outcome string :=
  obind (normalized_host url) (fun host => Ret (platform_of_host host)).

End UrlParse.

(* ------------------------------------------------------------------ *)
(** * The outside world and the monad of external calls *)
(* ------------------------------------------------------------------ *)

(** A handle on an element of the page. *)
Definition elem : Type := nat.

(** A content block of the language model's reply. *)
Inductive content_block : Type :=
| TextBlock (text : string)
| OtherBlock.

(** What [requests.get] returns: the status line, the URL that answered,
    and what [response.json()] makes of the body. *)
Record Response : Type := {
  status_code : nat;
  reason : string;
  response_url : string;
  json_body : outcome pyval
}.

(** The calls that leave the process, in the order the log records them. *)
Inductive event : Type :=
| EHttpGet (url : string)
| EImport (module : string)
| EExtractInfo (url : string)
| EGetTranscript (video_id : pyval)
| EPlaywrightStart
| EPlaywrightStop
| ELaunch (user_data_dir : string)
| EPages
| ENewPage
| EGoto (url : string)
| EWaitForTimeout (ms : nat)
| EPageUrl
| EWaitForFunction (timeout : nat)
| EWaitForSelector (selector : string) (timeout : nat)
| EQuerySelector (selector : string)
| EQuerySelectorAll (selector : string)
| EInnerText (el : elem)
| EGetAttribute (el : elem) (name : string)
| EClick (el : elem)
| EBrowserClose
| EPrint (line : string)
| EMessagesCreate (user_message : string).

(** The environment and the answers of the outside.  The first argument of
    an answer is the number of external calls made before it. *)
Record World : Type := {
  IS_SERVER : bool;
  SESSIONS_DIR : string;
  requests_get : nat -> string -> outcome Response;
  import_module : nat -> string -> outcome unit;
  extract_info : nat -> string -> outcome pyval;
  get_transcript : nat -> pyval -> outcome pyval;
  playwright_start : nat -> outcome unit;
  launch_persistent_context : nat -> string -> outcome unit;
  has_pages : nat -> bool;
  new_page : nat -> outcome unit;
  page_goto : nat -> string -> outcome unit;
  wait_for_timeout : nat -> nat -> outcome unit;
  page_url : nat -> string;
  wait_for_function : nat -> outcome unit;
  wait_for_selector : nat -> string -> outcome unit;
  query_selector : nat -> string -> outcome (option elem);
  query_selector_all : nat -> string -> outcome (list elem);
  inner_text : nat -> elem -> outcome string;
  get_attribute : nat -> elem -> string -> outcome (option string);
  click : nat -> elem -> outcome unit;
  browser_close : nat -> outcome unit;
  messages_create : nat -> string -> outcome (list content_block)
}.

(** A computation takes the log of the calls made so far (latest first) and
    gives the log it leaves and its outcome. *)
Definition M (A : Type) : Type := list event -> list event * outcome A.

Definition ret {A} (a : A) : M A := fun log => (log, Ret a).

Definition throw {A} (e : exn) : M A := fun log => (log, Raise e).

Definition lift {A} (o : outcome A) : M A := fun log => (log, o).

Definition bind {A B} (m : M A) (f : A -> M B) : M B :=
  fun log =>
    match m log with
    | (log', Ret a) => f a log'
    | (log', Raise e) => (log', Raise e)
    end.

(** One external call: it is logged, and the world answers. *)
Definition call {A} (ev : event) (answer : nat -> outcome A) : M A :=
  fun log => (ev :: log, answer (List.length log)).

(** [try: m  except <classes> as e: handler e] *)
Definition try_except {A} (m : M A) (handled : exn_class -> bool)
           (handler : exn -> M A) : M A :=
  fun log =>
    match m log with
    | (log', Raise e) =>
        if handled (exn_cls e) then handler e log' else (log', Raise e)
    | r => r
    end.

Declare Scope py_scope.
Delimit Scope py_scope with py.
Notation "x <- m ;; k" := (bind m (fun x => k))
  (at level 61, m at next level, right associativity) : py_scope.
Notation "m ;; k" := (bind m (fun _ => k))
  (at level 61, right associativity) : py_scope.
Notation "x <~ o ;; k" := (obind o (fun x => k))
  (at level 61, o at next level, right associativity) : py_scope.
Open Scope py_scope.

Definition print (line : string) : M unit :=
  call (EPrint line) (fun _ => Ret tt).

(* ------------------------------------------------------------------ *)
(** * [scraper.py]: the result shape *)
(* ------------------------------------------------------------------ *)

Record ScrapeResult : Type := {
  platform : string;
  text : string;
  author : pyval;
  image_urls : list pyval;
  video_urls : list pyval;
  timestamp : pyval;
  error : option string
}.

Definition _error_result (platform message : string) : ScrapeResult :=
  {| platform := platform;
     text := "";
     author := PStr "";
     image_urls := [];
     video_urls := [];
     timestamp := PStr "";
     error := Some message |}.

(* ------------------------------------------------------------------ *)
(** * [scraper.py]: Reddit *)
(* ------------------------------------------------------------------ *)

Definition image_exts : list string := ["jpg"; "jpeg"; "png"; "gif"; "webp"].

(** The pattern [\.(jpg|jpeg|png|gif|webp)(\?|$)] matched at the head of
    [s], letter case ignored; [$] is the end of the text or the place
    before a final newline. *)
Definition image_ext_here (s : string) : bool :=
  match s with
  | String "." r =>
      existsb (fun e =>
                 prefix_ci e r
                 && let t := drop (String.length e) r in
                    startswith "?" t || String.eqb t "" || String.eqb t nl)
              image_exts
  | _ => false
  end.

(** [re.search] of that pattern. *)
Fixpoint image_ext_search (s : string) : bool :=
  image_ext_here s
  || match s with
     | EmptyString => false
     | String _ r => image_ext_search r
     end.

Definition re_search_image (v : pyval) : outcome bool :=
  match v with
  | PStr s => Ret (image_ext_search s)
  | _ => Raise (mk_exn TypeError "expected string or bytes-like object")
  end.

(** [data[0]["data"]["children"][0]["data"]] *)
Definition reddit_post (data : pyval) : outcome pyval :=
  d0 <~ Py.item0 data ;;
  d1 <~ Py.item d0 "data" ;;
  d2 <~ Py.item d1 "children" ;;
  d3 <~ Py.item0 d2 ;;
  Py.item d3 "data".

(** The direct image link of the post, if its URL ends like an image. *)
Definition reddit_direct_image (post : pyval) : outcome (list string) :=
  post_url <~ Py.get post "url" (PStr "") ;;
  is_image <~ re_search_image post_url ;;
  Ret (match post_url with
       | PStr u => if is_image then [u] else []
       | _ => []
       end).

Definition reddit_video (post : pyval) : outcome (list pyval) :=
  is_video <~ Py.get post "is_video" PNone ;;
  if Py.truthy is_video then
    media <~ Py.get post "media" (PDict []) ;;
    reddit_video <~ Py.get media "reddit_video" (PDict []) ;;
    vid_url <~ Py.get reddit_video "fallback_url" PNone ;;
    Ret (if Py.truthy vid_url then [vid_url] else [])
  else Ret [].

(** One turn of the loop over the preview images. *)
Definition add_preview (image_urls : list string) (img : pyval)
  : outcome (list string) :=
  source <~ Py.get img "source" (PDict []) ;;
  u <~ Py.get source "url" (PStr "") ;;
  src <~ Py.str_replace u "&amp;" "&" ;;
  Ret (if negb (String.eqb src "") && negb (in_tuple src image_urls)
       then (image_urls ++ [src])%list
       else image_urls).

Fixpoint add_previews (image_urls : list string) (imgs : list pyval)
  : outcome (list string) :=
  match imgs with
  | [] => Ret image_urls
  | img :: rest =>
      image_urls' <~ add_preview image_urls img ;;
      add_previews image_urls' rest
  end.

Definition reddit_previews (post : pyval) : outcome (list pyval) :=
  preview <~ Py.get post "preview" (PDict []) ;;
  images <~ Py.get preview "images" (PList []) ;;
  first_two <~ Py.slice_to 2 images ;;
  Py.iter first_two.

(** The body of [scrape_reddit] once the post is at hand. *)
Definition reddit_result (post : pyval) : outcome ScrapeResult :=
  title <~ Py.get post "title" (PStr "") ;;
  body <~ Py.get post "selftext" (PStr "") ;;
  let text := strip (Py.str title ++ nl ++ nl ++ Py.str body) in
  direct <~ reddit_direct_image post ;;
  video_urls <~ reddit_video post ;;
  previews <~ reddit_previews post ;;
  image_urls <~ add_previews direct previews ;;
  author <~ Py.get post "author" (PStr "") ;;
  created <~ Py.get post "created_utc" (PStr "") ;;
  Ret {| platform := "reddit";
         text := text;
         author := author;
         image_urls := map PStr image_urls;
         video_urls := video_urls;
         timestamp := PStr (Py.str created);
         error := None |}.

(** [response.raise_for_status()] *)
Definition raise_for_status (r : Response) : outcome unit :=
  let message kind :=
    of_nat (status_code r) ++ " " ++ kind ++ " Error: " ++ reason r
      ++ " for url: " ++ response_url r in
  if between 400 499 (status_code r)
  then Raise (mk_exn RequestException (message "Client"))
  else if between 500 599 (status_code r)
  then Raise (mk_exn RequestException (message "Server"))
  else Ret tt.

Definition reddit_clean_url (url : string) : string :=
  rstrip_with (Ascii.eqb "/") (split_head "?" url) ++ ".json".

(** The dash in the second message is outside the character range of the
    embedding; the literal keeps its UTF-8 bytes. *)
Definition scrape_reddit (w : World) (url : string) : M ScrapeResult :=
  let clean_url := reddit_clean_url url in
  fetched <-
    try_except
      (response <- call (EHttpGet clean_url) (fun t => requests_get w t clean_url) ;;
       lift (raise_for_status response) ;;
       ret (inr response))
      (fun c => issubclass c RequestException)
      (fun e => ret (inl (_error_result "reddit"
                            ("Could not fetch Reddit post: " ++ exn_msg e)))) ;;
  match fetched with
  | inl failed => ret failed
  | inr response =>
      parsed <-
        try_except
          (lift (data <~ json_body response ;;
                 post <~ reddit_post data ;;
                 Ret (inr post)))
          (fun c => issubclass c KeyError || issubclass c IndexError
                    || issubclass c JSONDecodeError)
          (fun _ => ret (inl (_error_result "reddit"
             "Could not parse Reddit response — the URL may not point to a specific post."))) ;;
      match parsed with
      | inl failed => ret failed
      | inr post => lift (reddit_result post)
      end
  end.

(* ------------------------------------------------------------------ *)
(** * [scraper.py]: YouTube *)
(* ------------------------------------------------------------------ *)

(** [x or ""] *)
Definition or_empty (v : pyval) : pyval :=
  if Py.truthy v then v else PStr "".

(** The generator [s["text"] for s in segments], run to its end. *)
Fixpoint segment_texts (segments : list pyval) : outcome (list pyval) :=
  match segments with
  | [] => Ret []
  | s :: rest =>
      t <~ Py.item s "text" ;;
      ts <~ segment_texts rest ;;
      Ret (t :: ts)
  end.

(** [" ".join(items)]: every item has to be a string. *)
Fixpoint join_space (items : list pyval) : outcome string :=
  match items with
  | [] => Ret ""
  | PStr piece :: rest =>
      more <~ join_space rest ;;
      Ret (match rest with
           | [] => piece
           | _ => piece ++ " " ++ more
           end)
  | t :: _ =>
      Raise (mk_exn TypeError
               ("sequence item: expected str instance, "
                  ++ Py.type_name t ++ " found"))
  end.

Definition transcript_of (segments : pyval) : outcome string :=
  l <~ Py.iter segments ;;
  texts <~ segment_texts l ;;
  joined <~ join_space texts ;;
  Ret (take 4000 joined).

Definition scrape_youtube (w : World) (url : string) : M ScrapeResult :=
  imported <-
    try_except
      (call (EImport "yt_dlp") (fun t => import_module w t "yt_dlp") ;; ret true)
      (fun c => issubclass c ImportError)
      (fun _ => ret false) ;;
  if negb imported
  then ret (_error_result "youtube" "yt-dlp not installed. Run: pip install yt-dlp")
  else
    fetched <-
      try_except
        (info <- call (EExtractInfo url) (fun t => extract_info w t url) ;;
         ret (inr info))
        is_Exception
        (fun e => ret (inl (_error_result "youtube"
                      ("Could not fetch YouTube video info: " ++ exn_msg e)))) ;;
    match fetched with
    | inl failed => ret failed
    | inr info =>
        title <- lift (Py.get info "title" (PStr "")) ;;
        description0 <- lift (Py.get info "description" PNone) ;;
        description <- lift (Py.slice_to 2000 (or_empty description0)) ;;
        uploader <- lift (Py.get info "uploader" (PStr "")) ;;
        video_id <- lift (Py.get info "id" (PStr "")) ;;
        thumbnail <- lift (Py.get info "thumbnail" (PStr "")) ;;
        let text := "Title: " ++ Py.str title ++ nl ++ nl
                    ++ "Description:" ++ nl ++ Py.str description in
        text <-
          try_except
            (call (EImport "youtube_transcript_api")
                  (fun t => import_module w t "youtube_transcript_api") ;;
             segments <- call (EGetTranscript video_id)
                              (fun t => get_transcript w t video_id) ;;
             transcript <- lift (transcript_of segments) ;;
             ret (text ++ nl ++ nl ++ "Video transcript:" ++ nl ++ transcript))
            is_Exception
            (fun _ => ret (text ++ nl ++ nl
                      ++ "[No captions or transcript available for this video]")) ;;
        upload_date <- lift (Py.get info "upload_date" (PStr "")) ;;
        ret {| platform := "youtube";
               text := strip text;
               author := uploader;
               image_urls := if Py.truthy thumbnail then [thumbnail] else [];
               video_urls := [PStr url];
               timestamp := upload_date;
               error := None |}
    end.

(* ------------------------------------------------------------------ *)
(** * [scraper.py]: the browser-backed retriever *)
(* ------------------------------------------------------------------ *)

(** The dictionary an extraction strategy hands back: each key may be
    missing. *)
Record Extracted : Type := {
  x_text : option string;
  x_author : option string;
  x_image_urls : option (list string);
  x_video_urls : option (list string);
  x_error : option string
}.

Definition extracted_empty : Extracted :=
  {| x_text := None; x_author := None; x_image_urls := None;
     x_video_urls := None; x_error := None |}.

Definition extracted_error (message : string) : Extracted :=
  {| x_text := None; x_author := None; x_image_urls := None;
     x_video_urls := None; x_error := Some message |}.

Definition extracted_content (text author : string)
           (image_urls video_urls : list string) : Extracted :=
  {| x_text := Some text; x_author := Some author;
     x_image_urls := Some image_urls; x_video_urls := Some video_urls;
     x_error := None |}.

(** [d.get(key, default)] on a key that may be missing *)
Definition get_or {A} (field : option A) (default : A) : A :=
  match field with Some a => a | None => default end.

Definition _is_login_page (url platform : string) : bool :=
  existsb (fun word => contains word (lower url))
          ["login"; "signin"; "sign-in"; "accounts/login"; "/auth"; "session/new"].

(** [re.sub(r"&name=\w+$", "&name=large", src)] *)
Definition name_param_here (s : string) : option string :=
  if prefix "&name=" s then
    let r := drop 6 s in
    let tail := lstrip_with is_word r in
    if negb (String.eqb tail r) && (String.eqb tail "" || String.eqb tail nl)
    then Some tail else None
  else None.

Fixpoint name_large (s : string) : string :=
  match name_param_here s with
  | Some tail => "&name=large" ++ tail
  | None =>
      match s with
      | EmptyString => EmptyString
      | String c r => String c (name_large r)
      end
  end.

(** The selector [[name="value"]] *)
Definition attr_sel (name value : string) : string :=
  "[" ++ name ++ "=" ++ String Py.dquote value ++ String Py.dquote "]".

Section Browser.

Variable w : World.

Definition wait (ms : nat) : M unit :=
  call (EWaitForTimeout ms) (fun t => wait_for_timeout w t ms).

Definition query (selector : string) : M (option elem) :=
  call (EQuerySelector selector) (fun t => query_selector w t selector).

Definition attribute (el : elem) (name : string) : M (option string) :=
  call (EGetAttribute el name) (fun t => get_attribute w t el name).

Definition close_browser : M unit :=
  call EBrowserClose (browser_close w).

Definition goto (url : string) : M unit :=
  call (EGoto url) (fun t => page_goto w t url).

Definition current_url : M string :=
  call EPageUrl (fun t => Ret (page_url w t)).

(** The loop over [dismiss_selectors]: the first button whose click goes
    through ends it. *)
Fixpoint dismiss_overlay (selectors : list string) : M unit :=
  match selectors with
  | [] => ret tt
  | selector :: rest =>
      btn <- query selector ;;
      match btn with
      | Some b =>
          clicked <-
            try_except
              (call (EClick b) (fun t => click w t b) ;; wait 1000 ;; ret true)
              is_Exception
              (fun _ => ret false) ;;
          if clicked then ret tt else dismiss_overlay rest
      | None => dismiss_overlay rest
      end
  end.

(** The loop over the photographs of the post. *)
Fixpoint twitter_images (image_urls : list string) (imgs : list elem)
  : M (list string) :=
  match imgs with
  | [] => ret image_urls
  | img :: rest =>
      a <- attribute img "src" ;;
      let src := get_or a "" in
      if contains "pbs.twimg.com" src
      then twitter_images (image_urls ++ [name_large src])%list rest
      else twitter_images image_urls rest
  end.

(** [el.get_attribute("content") or ""] *)
Definition content_or_empty (el : elem) : M string :=
  a <- attribute el "content" ;;
  ret (match a with
       | Some s => s
       | None => ""
       end).

Definition _extract_twitter (url : string) : M Extracted :=
  call (EImport "playwright.sync_api")
       (fun t => import_module w t "playwright.sync_api") ;;
  wait 2000 ;;
  dismiss_overlay [(attr_sel "data-testid" "sheetDialog" ++ " " ++ attr_sel "aria-label" "Close");
                   (attr_sel "aria-label" "Close");
                   (attr_sel "data-testid" "app-bar-close")] ;;
  found <-
    try_except
      (call (EWaitForSelector ("article" ++ attr_sel "data-testid" "tweet") 15000)
            (fun t => wait_for_selector w t ("article" ++ attr_sel "data-testid" "tweet")) ;;
       ret true)
      (fun c => issubclass c PlaywrightTimeoutError)
      (fun _ => ret false) ;;
  if negb found
  then ret (extracted_error
    "Tweet content not found. The post may be deleted, private, or require login.")
  else
    text_el <- query (attr_sel "data-testid" "tweetText") ;;
    text <- match text_el with
            | Some el => call (EInnerText el) (fun t => inner_text w t el)
            | None => ret ""
            end ;;
    author_el <- query (attr_sel "data-testid" "User-Name") ;;
    author <- match author_el with
              | Some el =>
                  name <- call (EInnerText el) (fun t => inner_text w t el) ;;
                  ret (split_head nl name)
              | None => ret ""
              end ;;
    imgs <- call (EQuerySelectorAll (attr_sel "data-testid" "tweetPhoto" ++ " img"))
                 (fun t => query_selector_all w t (attr_sel "data-testid" "tweetPhoto" ++ " img")) ;;
    image_urls <- twitter_images [] imgs ;;
    video <- query (attr_sel "data-testid" "videoComponent") ;;
    let video_urls := match video with Some _ => [url] | None => [] end in
    ret (extracted_content text author image_urls video_urls).

(** [[url] if og_type and "video" in (og_type.get_attribute("content") or "")
    else []] *)
Definition og_video_urls (og_type : option elem) (url : string)
  : M (list string) :=
  match og_type with
  | Some el =>
      kind <- content_or_empty el ;;
      ret (if contains "video" kind then [url] else [])
  | None => ret []
  end.

Definition _extract_instagram (url : string) : M Extracted :=
  wait 2000 ;;
  og_desc <- query ("meta" ++ attr_sel "property" "og:description") ;;
  og_image <- query ("meta" ++ attr_sel "property" "og:image") ;;
  og_type <- query ("meta" ++ attr_sel "property" "og:type") ;;
  text <- match og_desc with
          | Some el => content_or_empty el
          | None => ret ""
          end ;;
  image_urls <- match og_image with
                | Some el => c <- content_or_empty el ;; ret [c]
                | None => ret []
                end ;;
  video_urls <- og_video_urls og_type url ;;
  ret (extracted_content text "" image_urls video_urls).

Definition _extract_facebook (url : string) : M Extracted :=
  wait 2000 ;;
  og_title <- query ("meta" ++ attr_sel "property" "og:title") ;;
  og_desc <- query ("meta" ++ attr_sel "property" "og:description") ;;
  og_image <- query ("meta" ++ attr_sel "property" "og:image") ;;
  og_type <- query ("meta" ++ attr_sel "property" "og:type") ;;
  title <- match og_title with
           | Some el => content_or_empty el
           | None => ret ""
           end ;;
  desc <- match og_desc with
          | Some el => content_or_empty el
          | None => ret ""
          end ;;
  let text := strip (title ++ nl ++ nl ++ desc) in
  image_urls <- match og_image with
                | Some el => c <- content_or_empty el ;; ret [c]
                | None => ret []
                end ;;
  video_urls <- og_video_urls og_type url ;;
  ret (extracted_content text "" image_urls video_urls).

End Browser.

(** [os.path.join(a, b)] on a POSIX system *)
Definition os_path_join (a b : string) : string :=
  if startswith "/" b then b
  else if String.eqb a "" || String.eqb (drop (String.length a - 1) a) "/"
       then a ++ b
       else a ++ "/" ++ b.

(** [with sync_playwright() as p: body]: the driver is stopped when the
    block is left, by its end, by a [return] or by an exception. *)
Definition with_sync_playwright {A} (w : World) (body : M A) : M A :=
  call EPlaywrightStart (playwright_start w) ;;
  fun log => let (log', o) := body log in (EPlaywrightStop :: log', o).

(** The block under [with]: [inl r] when it returns [r] from the function,
    [inr result] when it runs to its end. *)
Definition browser_session (w : World) (url platform : string)
  : M (ScrapeResult + Extracted) :=
  let session_dir := os_path_join (SESSIONS_DIR w) platform in
  call (ELaunch session_dir)
       (fun t => launch_persistent_context w t session_dir) ;;
  pages <- call EPages (fun t => Ret (has_pages w t)) ;;
  (if pages : bool then ret tt else call ENewPage (new_page w)) ;;
  failed <-
    try_except
      (goto w url ;; ret None)
      is_Exception
      (fun e =>
         close_browser w ;;
         ret (Some (_error_result platform
                      ("Page failed to load: " ++ exn_msg e)))) ;;
  match failed with
  | Some r => ret (inl r)
  | None =>
      wait w 3000 ;;
      here <- current_url w ;;
      timed_out <-
        (if _is_login_page here platform then
           print (nl ++ ">>> Please log in to " ++ title platform
                     ++ " in the browser window.") ;;
           print (">>> Waiting up to 90 seconds. "
                    ++ "The window will close automatically after login." ++ nl) ;;
           try_except
             (call (EWaitForFunction 90000) (wait_for_function w) ;;
              wait w 3000 ;;
              goto w url ;;
              wait w 3000 ;;
              ret None)
             is_Exception
             (fun _ =>
                close_browser w ;;
                ret (Some (_error_result platform
                   "Login timed out (90 seconds). Please try again.")))
         else ret None) ;;
      match timed_out with
      | Some r => ret (inl r)
      | None =>
          here <- current_url w ;;
          print ("[scraper] Page loaded. URL: " ++ here) ;;
          result <-
            try_except
              (if String.eqb platform "twitter" then _extract_twitter w url
               else if String.eqb platform "instagram" then _extract_instagram w url
               else if String.eqb platform "facebook" then _extract_facebook w url
               else ret extracted_empty)
              is_Exception
              (fun e => ret (extracted_error
                               ("Content extraction failed: " ++ exn_msg e))) ;;
          print ("[scraper] Extraction result: text_length="
                   ++ of_nat (String.length (get_or (x_text result) ""))
                   ++ ", error="
                   ++ match x_error result with
                      | Some m => m
                      | None => "None"
                      end) ;;
          close_browser w ;;
          ret (inr result)
      end
  end.

(** The message of the browser-backed retriever on a server. *)
Definition manual_entry : string :=
  "Please copy and paste the post text manually.".

Definition server_message (platform : string) : string :=
  "Scraping " ++ title platform
    ++ " requires a logged-in browser session, which only works "
    ++ "in the desktop version of this tool. "
    ++ manual_entry.

Definition scrape_playwright (w : World) (url platform : string)
  : M ScrapeResult :=
  if IS_SERVER w then
    ret (_error_result platform (server_message platform))
  else
    imported <-
      try_except
        (call (EImport "playwright.sync_api")
              (fun t => import_module w t "playwright.sync_api") ;;
         ret true)
        (fun c => issubclass c ImportError)
        (fun _ => ret false) ;;
    if negb imported then
      ret (_error_result platform
        "Playwright not installed. Run: pip install playwright && playwright install chromium")
    else
      session <- with_sync_playwright w (browser_session w url platform) ;;
      match session with
      | inl r => ret r
      | inr result =>
          ret {| platform := platform;
                 text := get_or (x_text result) "";
                 author := PStr (get_or (x_author result) "");
                 image_urls := map PStr (get_or (x_image_urls result) []);
                 video_urls := map PStr (get_or (x_video_urls result) []);
                 timestamp := PStr "";
                 error := x_error result |}
      end.

(* ------------------------------------------------------------------ *)
(** * [scraper.py]: the dispatcher *)
(* ------------------------------------------------------------------ *)

(** The values of the table [scrapers]: a retriever takes the URL, or the
    URL and the platform. *)
Inductive retriever : Type :=
| OfUrl (f : string -> M ScrapeResult)
| OfUrlAndPlatform (f : string -> string -> M ScrapeResult).

Definition scrapers (w : World) : list (string * retriever) :=
  [ ("reddit", OfUrl (scrape_reddit w));
    ("youtube", OfUrl (scrape_youtube w));
    ("twitter", OfUrlAndPlatform (scrape_playwright w));
    ("instagram", OfUrlAndPlatform (scrape_playwright w));
    ("facebook", OfUrlAndPlatform (scrape_playwright w)) ].

Fixpoint table_lookup {A} (k : string) (t : list (string * A)) : option A :=
  match t with
  | [] => None
  | (k', a) :: r => if String.eqb k k' then Some a else table_lookup k r
  end.

Definition unrecognized_url : string :=
  "Unrecognized URL. Supported: X/Twitter, Reddit, YouTube, Instagram, Facebook.".

(** The body of [scrape] once the platform is known. *)
Definition dispatch (w : World) (url platform : string) : M ScrapeResult :=
  if String.eqb platform "unknown" then
    ret (_error_result "unknown" unrecognized_url)
  else
    match table_lookup platform (scrapers w) with
    | None => throw (mk_exn KeyError (Py.repr_str platform))
    | Some r =>
        if in_tuple platform ["twitter"; "instagram"; "facebook"] then
          match r with
          | OfUrlAndPlatform f => f url platform
          | OfUrl _ =>
              throw (mk_exn TypeError "takes 1 positional argument but 2 were given")
          end
        else
          match r with
          | OfUrl f => f url
          | OfUrlAndPlatform _ =>
              throw (mk_exn TypeError
                       "missing 1 required positional argument: 'platform'")
          end
    end.

Section Dispatcher.

Context {lib : PyLib}.

Definition scrape (w : World) (url : string) : M ScrapeResult :=
  platform <- lift (detect_platform url) ;;
  dispatch w url platform.

(* ------------------------------------------------------------------ *)
(** * [claims.py] *)
(* ------------------------------------------------------------------ *)

Definition fence : string := "```".

Definition parse_failure_message : string :=
  "Claude returned a response that could not be parsed as structured data. "
  ++ "The raw response is shown in 'summary'.".

(** The two assignments under [if raw_text.startswith(fence)]: the first
    line is dropped, then what follows the last fence.  [split(...)[1]]
    needs a line break to be there. *)
Definition strip_fence (raw_text : string) : outcome string :=
  if startswith fence raw_text then
    match split1 nl raw_text with
    | [_; rest] => Ret (strip (hd "" (rsplit1 fence rest)))
    | _ => Raise (mk_exn IndexError "list index out of range")
    end
  else Ret raw_text.

(** The dictionary built in the handler of [json.JSONDecodeError]; at that
    point [raw_text] is the text that was given to [json.loads]. *)
Definition parse_fallback (raw_text : string) : pyval :=
  PDict [ ("claims", PList []);
          ("summary", PStr raw_text);
          ("error", PStr parse_failure_message) ].

(** The [try] statement of [extract_and_classify]. *)
Definition parse_reply (raw_text : string) : outcome pyval :=
  match strip_fence raw_text with
  | Raise e =>
      if issubclass (exn_cls e) JSONDecodeError
      then Ret (parse_fallback raw_text) else Raise e
  | Ret raw_text' =>
      match json_loads raw_text' with
      | Ret result => Ret result
      | Raise e =>
          if issubclass (exn_cls e) JSONDecodeError
          then Ret (parse_fallback raw_text') else Raise e
      end
  end.

(** [response.content[0].text] *)
Definition first_text (content : list content_block) : outcome string :=
  match content with
  | [] => Raise (mk_exn IndexError "list index out of range")
  | TextBlock t :: _ => Ret t
  | OtherBlock :: _ =>
      Raise (mk_exn AttributeError "object has no attribute 'text'")
  end.

Definition user_message (text url : string) : string :=
  let url_context :=
    if negb (String.eqb url "")
    then "Original post URL: " ++ url ++ nl ++ nl else "" in
  url_context
    ++ "Please analyze this social media post and extract all factual claims:"
    ++ nl ++ nl ++ "---" ++ nl ++ text ++ nl ++ "---".

Definition extract_and_classify (w : World) (text url : string) : M pyval :=
  let message := user_message text url in
  content <- call (EMessagesCreate message)
                  (fun t => messages_create w t message) ;;
  raw_text <- lift (first_text content) ;;
  lift (parse_reply (strip raw_text)).

(* ------------------------------------------------------------------ *)
(** * [main.py] *)
(* ------------------------------------------------------------------ *)

Record PostInput : Type := {
  post_text : string;
  post_url : string
}.

(** A [ScrapeResult] as the dictionary the response carries. *)
Definition scraped_dict (r : ScrapeResult) : pyval :=
  PDict [ ("platform", PStr (platform r));
          ("text", PStr (text r));
          ("author", author r);
          ("image_urls", PList (image_urls r));
          ("video_urls", PList (video_urls r));
          ("timestamp", timestamp r);
          ("error", match error r with Some m => PStr m | None => PNone end) ].

(** [result["scraped"] = scraped] *)
Definition set_scraped (result scraped : pyval) : outcome pyval :=
  match result with
  | PDict kvs => Ret (PDict (Py.store "scraped" scraped kvs))
  | _ => Raise (mk_exn TypeError
                  ("'" ++ Py.type_name result
                       ++ "' object does not support item assignment"))
  end.

Definition refusal (message : string) : pyval :=
  PDict [ ("error", PStr message); ("claims", PList []); ("summary", PStr "") ].

Definition no_input_message : string :=
  "Please provide either a URL or some post text.".

Definition no_content_message : string :=
  "No text content could be extracted from this post.".

(** The lines a scrape adds to the text about the media it found. *)
Definition media_notes (scraped : ScrapeResult) : string :=
  (match image_urls scraped with
   | [] => ""
   | l => nl ++ nl ++ "[Note: this post contains "
             ++ of_nat (List.length l) ++ " image(s)]"
   end)
  ++
  (match video_urls scraped with
   | [] => ""
   | l => nl ++ nl ++ "[Note: this post contains "
             ++ of_nat (List.length l) ++ " video(s)]"
   end).

(** The end of [analyze_post], from the white space test on. *)
Definition analyze_text (w : World) (post : PostInput)
           (scraped : option ScrapeResult) (text_to_analyze : string) : M pyval :=
  if String.eqb (strip text_to_analyze) "" then
    ret (refusal no_content_message)
  else
    result <- extract_and_classify w text_to_analyze (post_url post) ;;
    match scraped with
    | Some s => lift (set_scraped result (scraped_dict s))
    | None => ret result
    end.

Definition analyze_post (w : World) (post : PostInput) : M pyval :=
  if negb (String.eqb (post_url post) "") then
    scraped <- scrape w (post_url post) ;;
    match error scraped with
    | Some message =>
        if negb (String.eqb message "") then
          ret (PDict [ ("error", PStr message);
                       ("scraped", scraped_dict scraped);
                       ("claims", PList []);
                       ("summary", PStr "") ])
        else analyze_text w post (Some scraped)
                          (text scraped ++ media_notes scraped)
    | None =>
        analyze_text w post (Some scraped) (text scraped ++ media_notes scraped)
    end
  else if negb (String.eqb (post_text post) "") then
    analyze_text w post None (post_text post)
  else
    ret (refusal no_input_message).

End Dispatcher.

(* ------------------------------------------------------------------ *)
(** * An instance of the library functions, for running the code *)
(* ------------------------------------------------------------------ *)

(** The theorems below are stated for every [PyLib].  To run the code on
    concrete inputs the two functions are written out here: the IPv6 text
    format of [ipaddress], and a reader for JSON texts that hold no float
    and no escaped code point above 255 (on other texts it answers that the
    text is outside of what it reads). *)

Module IPv6.

Local Open Scope nat_scope.

(** [s.split(sep)] for a separator of one character *)
Fixpoint split_on (sep : ascii) (s : string) : list string :=
  match s with
  | EmptyString => [EmptyString]
  | String c r =>
      if Ascii.eqb c sep then EmptyString :: split_on sep r
      else match split_on sep r with
           | p :: ps => String c p :: ps
           | [] => [String c EmptyString]
           end
  end.

Definition decimal (s : string) : nat :=
  (fix go (acc : nat) (s : string) : nat :=
     match s with
     | EmptyString => acc
     | String c r => go (10 * acc + (code c - 48)) r
     end) 0 s.

(** [IPv4Address._parse_octet] accepts the text. *)
Definition is_octet (s : string) : bool :=
  negb (String.eqb s "") && all_chars is_digit s && (String.length s <=? 3)
  && (String.eqb s "0" || negb (startswith "0" s))
  && (decimal s <=? 255).

Definition is_ipv4 (s : string) : bool :=
  let octets := split_on "." s in
  (List.length octets =? 4) && forallb is_octet octets.

(** [IPv6Address._parse_hextet] accepts the text. *)
Definition is_hextet (s : string) : bool :=
  negb (String.eqb s "") && all_chars is_hex s && (String.length s <=? 4).

Definition empty (s : string) : bool := String.eqb s "".

(** The positions, ends excluded, of the empty parts. *)
Definition inner_gaps (parts : list string) : list nat :=
  map fst (filter (fun ip => empty (snd ip) && (1 <=? fst ip)
                             && (S (fst ip) <? List.length parts))
                  (combine (seq 0 (List.length parts)) parts)).

(** [IPv6Address._ip_int_from_string] accepts the text. *)
Definition is_address (s : string) : bool :=
  let parts := split_on ":" s in
  negb (empty s) && (3 <=? List.length parts)
  && let last_part := last parts "" in
     let v4 := contains "." last_part in
     (negb v4 || is_ipv4 last_part)
     && let parts := if v4 then (removelast parts ++ ["0"; "0"])%list else parts in
        let n := List.length parts in
        (n <=? 9)
        && match inner_gaps parts with
           | [] => (n =? 8) && forallb is_hextet parts
           | [k] =>
               let head_empty := empty (hd "" parts) in
               let tail_empty := empty (last parts "") in
               let hi := if head_empty then k - 1 else k in
               let lo := if tail_empty then n - k - 2 else n - k - 1 in
               (negb head_empty || (hi =? 0))
               && (negb tail_empty || (lo =? 0))
               && (hi + lo <? 8)
               && forallb is_hextet (firstn hi parts)
               && forallb is_hextet (skipn (n - lo) parts)
           | _ => false
           end.

(** [ipaddress.ip_address(s)] returns an [IPv6Address]: no slash, an
    optional zone after one percent sign, and an address. *)
Definition is_ipv6_address (s : string) : bool :=
  negb (contains "/" s)
  && match find "%" s with
     | None => is_address s
     | Some i =>
         let zone := drop (S i) s in
         negb (empty zone) && negb (contains "%" zone) && is_address (take i s)
     end.

End IPv6.

Module Json.

Local Open Scope nat_scope.

(** What reading a prefix of a text gives. *)
Inductive read (A : Type) : Type :=
| Got (a : A) (rest : string)
| Malformed          (* [json.JSONDecodeError] *)
| TooDeep            (* the descent ran out of fuel *)
| Outside.           (* a float, or a code point above 255 *)
Arguments Got {A} a rest.
Arguments Malformed {A}.
Arguments TooDeep {A}.
Arguments Outside {A}.

Definition then_ {A B} (r : read A) (k : A -> string -> read B) : read B :=
  match r with
  | Got a rest => k a rest
  | Malformed => Malformed
  | TooDeep => TooDeep
  | Outside => Outside
  end.

Definition is_ws (c : ascii) : bool :=
  let n := code c in (n =? 32) || (n =? 9) || (n =? 10) || (n =? 13).

Definition skip_ws (s : string) : string := lstrip_with is_ws s.

Definition hex_value (c : ascii) : nat :=
  let n := code c in
  if between 48 57 n then n - 48
  else if between 65 70 n then n - 55
  else n - 87.

Definition backslash : ascii := ascii_of_nat 92.

(** The character a one-letter escape stands for. *)
Definition unescape (c : ascii) : option ascii :=
  let n := code c in
  if (n =? 34) || (n =? 92) || (n =? 47) then Some c
  else if n =? 98 then Some (ascii_of_nat 8)
  else if n =? 102 then Some (ascii_of_nat 12)
  else if n =? 110 then Some (ascii_of_nat 10)
  else if n =? 114 then Some (ascii_of_nat 13)
  else if n =? 116 then Some (ascii_of_nat 9)
  else None.

(** The body of a string, after its opening quote. *)
Fixpoint read_string (fuel : nat) (s : string) : read string :=
  match fuel with
  | O => TooDeep
  | S f =>
      match s with
      | EmptyString => Malformed
      | String c r =>
          if Ascii.eqb c Py.dquote then Got "" r
          else if Ascii.eqb c backslash then
            match r with
            | String "u" r' =>
                let digits := take 4 r' in
                if (String.length digits =? 4) && all_chars is_hex digits then
                  let n := List.fold_left (fun acc d => 16 * acc + hex_value d)
                                          (list_ascii_of_string digits) 0 in
                  if n <? 256
                  then then_ (read_string f (drop 4 r'))
                             (fun t rest => Got (String (ascii_of_nat n) t) rest)
                  else Outside
                else Malformed
            | String e r' =>
                match unescape e with
                | Some c' => then_ (read_string f r')
                                   (fun t rest => Got (String c' t) rest)
                | None => Malformed
                end
            | EmptyString => Malformed
            end
          else if code c <? 32 then Malformed
          else then_ (read_string f r) (fun t rest => Got (String c t) rest)
      end
  end.

Definition digits_of (s : string) : string :=
  take (String.length s - String.length (lstrip_with is_digit s)) s.

(** A number at the head of the text: an optional minus sign, then zero or
    a run of digits that does not start with zero; it is a float when a
    fraction or an exponent follows. *)
Definition read_number (s : string) : read pyval :=
  let (negative, body) :=
    match s with
    | String "-" r => (true, r)
    | _ => (false, s)
    end in
  let int_part :=
    match body with
    | String "0" _ => "0"
    | _ => digits_of body
    end in
  if String.eqb int_part "" then Malformed
  else
    let rest := drop (String.length int_part) body in
    let has_fraction :=
      match rest with
      | String "." (String d _) => is_digit d
      | _ => false
      end in
    let has_exponent :=
      match rest with
      | String e (String d r) =>
          (Ascii.eqb e "e" || Ascii.eqb e "E")
          && (is_digit d
              || ((Ascii.eqb d "+" || Ascii.eqb d "-")
                  && match r with String d' _ => is_digit d' | _ => false end))
      | _ => false
      end in
    if has_fraction || has_exponent then Outside
    else
      let n := Z.of_nat (IPv6.decimal int_part) in
      Got (PInt (if negative then (- n)%Z else n)) rest.

Fixpoint read_value (fuel : nat) (s : string) : read pyval :=
  match fuel with
  | O => TooDeep
  | S f =>
      match s with
      | String c r =>
          if Ascii.eqb c Py.dquote then
            then_ (read_string (String.length r + 1) r)
                  (fun t rest => Got (PStr t) rest)
          else if Ascii.eqb c "{" then
            match skip_ws r with
            | String "}" rest => Got (PDict []) rest
            | r' => read_members f [] r'
            end
          else if Ascii.eqb c "[" then
            match skip_ws r with
            | String "]" rest => Got (PList []) rest
            | r' => read_items f [] r'
            end
          else if prefix "null" s then Got PNone (drop 4 s)
          else if prefix "true" s then Got (PBool true) (drop 4 s)
          else if prefix "false" s then Got (PBool false) (drop 5 s)
          else if prefix "NaN" s || prefix "Infinity" s || prefix "-Infinity" s
          then Outside
          else read_number s
      | EmptyString => Malformed
      end
  end

with read_items (fuel : nat) (seen : list pyval) (s : string) : read pyval :=
  match fuel with
  | O => TooDeep
  | S f =>
      then_ (read_value f s)
            (fun v rest =>
               match skip_ws rest with
               | String "," rest' => read_items f (seen ++ [v])%list (skip_ws rest')
               | String "]" rest' => Got (PList (seen ++ [v])%list) rest'
               | _ => Malformed
               end)
  end

with read_members (fuel : nat) (seen : list (string * pyval)) (s : string)
  : read pyval :=
  match fuel with
  | O => TooDeep
  | S f =>
      match s with
      | String c r =>
          if Ascii.eqb c Py.dquote then
            then_ (read_string (String.length r + 1) r)
                  (fun k rest =>
                     match skip_ws rest with
                     | String ":" rest' =>
                         then_ (read_value f (skip_ws rest'))
                               (fun v rest'' =>
                                  let seen' := Py.store k v seen in
                                  match skip_ws rest'' with
                                  | String "," rest3 =>
                                      read_members f seen' (skip_ws rest3)
                                  | String "}" rest3 => Got (PDict seen') rest3
                                  | _ => Malformed
                                  end)
                     | _ => Malformed
                     end)
          else Malformed
      | EmptyString => Malformed
      end
  end.

Definition decode_error : exn := mk_exn JSONDecodeError "Expecting value".

(** [json.loads(s)] on the texts the reader covers. *)
Definition loads (s : string) : outcome pyval :=
  match read_value (2 * String.length s + 3) (skip_ws s) with
  | Got v rest =>
      if String.eqb (skip_ws rest) "" then Ret v else Raise decode_error
  | Malformed => Raise decode_error
  | TooDeep => Raise (mk_exn OtherException "maximum recursion depth exceeded")
  | Outside => Raise (mk_exn OtherException "text outside of what the reader covers")
  end.

End Json.

Definition reference_lib : PyLib :=
  {| is_ipv6_address := IPv6.is_ipv6_address;
     json_loads := Json.loads |}.

(* ------------------------------------------------------------------ *)
(** * Worlds for running the code *)
(* ------------------------------------------------------------------ *)

(** A world is fixed by the deployment mode, what Reddit answers, whether
    the browser starts, the photographs on the page with their [src], and
    the reply of the language model.  Every other call goes through; the
    page has no other element, and the metadata tool is not reachable. *)
Definition staged (server : bool) (reddit : outcome Response)
           (launch : outcome unit) (photos : list elem)
           (src : elem -> option string) (reply : list content_block) : World :=
  {| IS_SERVER := server;
     SESSIONS_DIR := "/app/backend/sessions";
     requests_get := fun _ _ => reddit;
     import_module := fun _ _ => Ret tt;
     extract_info := fun _ _ => Raise (mk_exn OtherException "network is unreachable");
     get_transcript := fun _ _ => Raise (mk_exn OtherException "network is unreachable");
     playwright_start := fun _ => Ret tt;
     launch_persistent_context := fun _ _ => launch;
     has_pages := fun _ => true;
     new_page := fun _ => Ret tt;
     page_goto := fun _ _ => Ret tt;
     wait_for_timeout := fun _ _ => Ret tt;
     page_url := fun _ => "https://x.com/someone/status/1";
     wait_for_function := fun _ => Ret tt;
     wait_for_selector := fun _ _ => Ret tt;
     query_selector := fun _ _ => Ret None;
     query_selector_all := fun _ _ => Ret photos;
     inner_text := fun _ _ => Ret "";
     get_attribute := fun _ el _ => Ret (src el);
     click := fun _ _ => Ret tt;
     browser_close := fun _ => Ret tt;
     messages_create := fun _ _ => Ret reply |}.

Definition not_found : outcome Response :=
  Ret {| status_code := 404;
         reason := "Not Found";
         response_url := "https://www.reddit.com/r/pics/comments/1.json";
         json_body := Raise (mk_exn RequestsJSONDecodeError "Expecting value") |}.

Definition not_found_message : string :=
  "Could not fetch Reddit post: 404 Client Error: Not Found for url: "
    ++ "https://www.reddit.com/r/pics/comments/1.json".

(** A desktop machine whose browser cannot be started. *)
Definition no_browser : World :=
  staged false not_found
         (Raise (mk_exn PlaywrightError "Executable doesn't exist"))
         [] (fun _ => None) [].

(** A desktop machine showing a post with the same photograph twice. *)
Definition same_photo_twice : World :=
  staged false not_found (Ret tt) [1; 2]
         (fun _ => Some "https://pbs.twimg.com/media/a?format=jpg&name=small")
         [].

(** A server, where no browser can be shown. *)
Definition on_server : World :=
  staged true not_found (Ret tt) [] (fun _ => None) [].

(** A machine on which the language model answers [reply]. *)
Definition answering (reply : string) : World :=
  staged true not_found (Ret tt) [] (fun _ => None) [TextBlock reply].

(** A Reddit post that links an image which is also its first preview. *)
Definition image_post : pyval :=
  PDict [ ("title", PStr "A photograph");
          ("selftext", PStr "");
          ("url", PStr "https://i.redd.it/a.jpg");
          ("preview",
           PDict [("images",
                   PList [ PDict [("source",
                                   PDict [("url", PStr "https://i.redd.it/a.jpg")])];
                           PDict [("source",
                                   PDict [("url", PStr "https://preview.redd.it/a.jpg?s=1&amp;w=2")])] ])]);
          ("author", PStr "someone");
          ("created_utc", PFloat "1700000000.0") ].

(** The listing Reddit serves for a post. *)
Definition reddit_listing (post : pyval) : pyval :=
  PList [PDict [("data",
                 PDict [("children", PList [PDict [("data", post)]])])]].

(** A desktop machine on which Reddit serves [image_post]. *)
Definition serving_image_post : World :=
  staged false
         (Ret {| status_code := 200;
                 reason := "OK";
                 response_url := "https://www.reddit.com/r/pics/comments/1.json";
                 json_body := Ret (reddit_listing image_post) |})
         (Ret tt) [] (fun _ => None) [].

(** A desktop machine showing a page without text or media. *)
Definition empty_page : World :=
  staged false not_found (Ret tt) [] (fun _ => None) [].

(** What a run returned, if it returned. *)
Definition returned {A} (run : list event * outcome A) : option A :=
  match snd run with
  | Ret a => Some a
  | Raise _ => None
  end.

(** The number of times the URL [u] stands in a list of URLs. *)
Definition count_url (u : string) (urls : list pyval) : nat :=
  List.length (filter (fun v => match v with
                                | PStr s => String.eqb s u
                                | _ => false
                                end) urls).

(** The one-line reply and the fenced reply used as examples. *)
Definition q : string := String Py.dquote EmptyString.

Definition ok_object : string :=
  "{" ++ q ++ "claims" ++ q ++ ":[]," ++ q ++ "summary" ++ q ++ ":"
      ++ q ++ "ok" ++ q ++ "}".

Definition fenced_reply : string :=
  fence ++ "json" ++ nl ++ ok_object ++ nl ++ fence.

Definition one_line_fenced_reply : string :=
  fence ++ "json " ++ ok_object ++ " " ++ fence.

(* ------------------------------------------------------------------ *)
(** * Reasoning about computations *)
(* ------------------------------------------------------------------ *)

(** [ensures m P]: whenever [m] returns, what it returns satisfies [P]. *)
Definition ensures {A} (m : M A) (P : A -> Prop) : Prop :=
  forall log log' a, m log = (log', Ret a) -> P a.

(** A result that reports a failure carries no content. *)
Definition exclusive (r : ScrapeResult) : Prop :=
  error r <> None -> text r = "" /\ image_urls r = [] /\ video_urls r = [].

(** The same for what an extraction strategy hands back. *)
Definition tidy (x : Extracted) : Prop :=
  x_error x <> None ->
  x_text x = None /\ x_image_urls x = None /\ x_video_urls x = None.

(** A property of the value a block returns from the function early. *)
Definition on_return {A B} (P : A -> Prop) (Q : B -> Prop) (s : A + B) : Prop :=
  match s with
  | inl r => P r
  | inr x => Q x
  end.

(* ------------------------------------------------------------------ *)
(** * Further definitions: the rest of [main.py], messages, worlds *)
(* ------------------------------------------------------------------ *)

(** [main.py]: the answer of [health_check]. *)
Definition health_check : pyval :=
  PDict [ ("status", PStr "ok");
          ("message", PStr "Fact-checking pipeline is running.") ].




Definition no_transcript_note : string :=
  "[No captions or transcript available for this video]".

(** The value of a key of a dictionary, or a default: [d.get(k, default)]
    on a dictionary. *)
Definition field (kvs : list (string * pyval)) (k : string) (default : pyval)
  : pyval :=
  match Py.lookup k kvs with
  | Some x => x
  | None => default
  end.


(** A text of white space only. *)
Definition blank (s : string) : bool := all_chars is_space s.

(** [triple P m Q]: when [m] starts on a log that satisfies [P] and returns,
    the log it leaves and its value satisfy [Q]. *)
Definition triple {A} (P : list event -> Prop) (m : M A)
           (Q : list event -> A -> Prop) : Prop :=
  forall log log' a, P log -> m log = (log', Ret a) -> Q log' a.

(** The last external call was the closing of the browser. *)
Definition closed_last (log : list event) : Prop :=
  exists rest, log = EBrowserClose :: rest.

(** A desktop machine fixed by what an import answers, what the metadata
    tool and the transcript service answer, and what a wait on the page
    answers; the browser starts and the page is empty. *)
Definition equipped (imports : string -> outcome unit)
           (info transcript : outcome pyval) (settle : outcome unit) : World :=
  {| IS_SERVER := false;
     SESSIONS_DIR := "/app/backend/sessions";
     requests_get := fun _ _ => not_found;
     import_module := fun _ name => imports name;
     extract_info := fun _ _ => info;
     get_transcript := fun _ _ => transcript;
     playwright_start := fun _ => Ret tt;
     launch_persistent_context := fun _ _ => Ret tt;
     has_pages := fun _ => true;
     new_page := fun _ => Ret tt;
     page_goto := fun _ _ => Ret tt;
     wait_for_timeout := fun _ _ => settle;
     page_url := fun _ => "https://www.instagram.com/p/1/";
     wait_for_function := fun _ => Ret tt;
     wait_for_selector := fun _ _ => Ret tt;
     query_selector := fun _ _ => Ret None;
     query_selector_all := fun _ _ => Ret [];
     inner_text := fun _ _ => Ret "";
     get_attribute := fun _ _ _ => Ret None;
     click := fun _ _ => Ret tt;
     browser_close := fun _ => Ret tt;
     messages_create := fun _ _ => Ret [] |}.





Definition unreachable : outcome pyval :=
  Raise (mk_exn OtherException "network is unreachable").

(** What the metadata tool knows of a video. *)
Definition video_info : pyval :=
  PDict [ ("title", PStr "A talk");
          ("description", PNone);
          ("uploader", PStr "someone");
          ("id", PStr "abc123");
          ("thumbnail", PStr "https://i.ytimg.com/vi/abc123/default.jpg");
          ("upload_date", PStr "20240101") ].

(** A machine that reaches the metadata tool and not the transcripts. *)
Definition without_transcript : World :=
  equipped (fun _ => Ret tt) (Ret video_info) unreachable (Ret tt).


(** A machine whose page is gone by the time the code waits on it. *)
Definition page_gone : World :=
  equipped (fun _ => Ret tt) unreachable unreachable
           (Raise (mk_exn PlaywrightError "Target page has been closed")).



(** A Reddit post of text only. *)
Definition text_post : pyval :=
  PDict [ ("title", PStr " A question ");
          ("selftext", PStr "Is it true?");
          ("url", PStr "https://www.reddit.com/r/pics/comments/1/");
          ("author", PStr "someone");
          ("created_utc", PInt 1700000000) ].

(** What scraping [image_post] gives. *)
Definition image_post_scraped : ScrapeResult :=
  {| platform := "reddit";
     text := "A photograph";
     author := PStr "someone";
     image_urls := [PStr "https://i.redd.it/a.jpg";
                    PStr "https://preview.redd.it/a.jpg?s=1&w=2"];
     video_urls := [];
     timestamp := PStr "1700000000.0";
     error := None |}.

(** The request for the Reddit post, and the message sent for it. *)
Definition image_post_request : PostInput :=
  {| post_text := ""; post_url := "https://www.reddit.com/r/pics/comments/1/" |}.

Definition image_post_message : string :=
  "Original post URL: https://www.reddit.com/r/pics/comments/1/" ++ nl ++ nl
    ++ "Please analyze this social media post and extract all factual claims:"
    ++ nl ++ nl ++ "---" ++ nl ++ "A photograph" ++ nl ++ nl
    ++ "[Note: this post contains 2 image(s)]" ++ nl ++ "---".

(** A desktop machine on which Reddit serves [image_post] and the language
    model answers [reply]. *)
Definition serving_and_answering (reply : string) : World :=
  staged false
         (Ret {| status_code := 200;
                 reason := "OK";
                 response_url := "https://www.reddit.com/r/pics/comments/1.json";
                 json_body := Ret (reddit_listing image_post) |})
         (Ret tt) [] (fun _ => None) [TextBlock reply].

(** The text of [n] times the character [c]. *)
Fixpoint repeated (c : ascii) (n : nat) : string :=
  match n with
  | O => EmptyString
  | S m => String c (repeated c m)
  end.

(** A video with a description of 2500 characters. *)
Definition long_video_info : pyval :=
  PDict [ ("title", PStr "A talk");
          ("description", PStr (repeated "d" 2500));
          ("uploader", PStr "someone");
          ("id", PStr "abc123");
          ("thumbnail", PStr "https://i.ytimg.com/vi/abc123/default.jpg");
          ("upload_date", PStr "20240101") ].

(** Its transcript: two segments of 2500 characters each. *)
Definition long_transcript : pyval :=
  PList [ PDict [("text", PStr (repeated "a" 2500))];
          PDict [("text", PStr (repeated "b" 2500))] ].

(** A machine that reaches the metadata tool and the transcripts, for that
    video. *)
Definition long_video : World :=
  equipped (fun _ => Ret tt) (Ret long_video_info) (Ret long_transcript) (Ret tt).

Section Ensures.

Context {A B : Type}.

Lemma obind_ret (o : outcome A) (f : A -> outcome B) (b : B) :
  obind o f = Ret b -> exists a, o = Ret a /\ f a = Ret b.
Proof.
  destruct o as [a|e]; simpl; intros H; [eauto | discriminate].
Qed.

Lemma ensures_ret (a : A) (P : A -> Prop) : P a -> ensures (ret a) P.
Proof. intros H log log' a' E. inversion E; subst; exact H. Qed.

Lemma ensures_throw (e : exn) (P : A -> Prop) : ensures (throw e) P.
Proof. intros log log' a E. discriminate E. Qed.

Lemma ensures_lift (o : outcome A) (P : A -> Prop) :
  (forall a, o = Ret a -> P a) -> ensures (lift o) P.
Proof. intros H log log' a E. inversion E; subst. apply H; reflexivity. Qed.

Lemma ensures_bind (m : M A) (f : A -> M B) (Q : A -> Prop) (P : B -> Prop) :
  ensures m Q -> (forall a, Q a -> ensures (f a) P) -> ensures (bind m f) P.
Proof.
  intros Hm Hf log log' b E. unfold bind in E.
  destruct (m log) as [l1 [a|e]] eqn:Em; [|discriminate].
  exact (Hf a (Hm _ _ _ Em) _ _ _ E).
Qed.

Lemma ensures_then (m : M A) (f : A -> M B) (P : B -> Prop) :
  (forall a, ensures (f a) P) -> ensures (bind m f) P.
Proof.
  intros Hf. apply ensures_bind with (Q := fun _ => True).
  - intros log log' a _. exact I.
  - intros a _. apply Hf.
Qed.

Lemma ensures_try (m : M A) (handled : exn_class -> bool)
      (handler : exn -> M A) (P : A -> Prop) :
  ensures m P -> (forall e, ensures (handler e) P) ->
  ensures (try_except m handled handler) P.
Proof.
  intros Hm Hh log log' a E. unfold try_except in E.
  destruct (m log) as [l1 [a1|e]] eqn:Em.
  - inversion E; subst. exact (Hm _ _ _ Em).
  - destruct (handled (exn_cls e)); [|discriminate].
    exact (Hh e _ _ _ E).
Qed.

Lemma ensures_weaken (m : M A) (P Q : A -> Prop) :
  ensures m P -> (forall a, P a -> Q a) -> ensures m Q.
Proof. intros Hm HPQ log log' a E. apply HPQ. exact (Hm _ _ _ E). Qed.

End Ensures.

Lemma ensures_with {A} (w : World) (body : M A) (P : A -> Prop) :
  ensures body P -> ensures (with_sync_playwright w body) P.
Proof.
  intros Hb. unfold with_sync_playwright. apply ensures_then. intros _.
  intros log log' a E. destruct (body log) as [l1 o] eqn:Eb.
  inversion E; subst. exact (Hb _ _ _ Eb).
Qed.

Ltac ens :=
  repeat first
    [ apply ensures_ret
    | apply ensures_throw
    | apply ensures_try; [ | intro ]
    | apply ensures_then; intro
    | match goal with
      | |- ensures (if ?b then _ else _) _ => destruct b
      | |- ensures (match ?x with _ => _ end) _ => destruct x
      end ].

Ltac obind_inv H :=
  repeat (apply obind_ret in H; destruct H as (? & ? & H); cbv beta zeta in H).

(* ------------------------------------------------------------------ *)
(** * Failure and content exclude each other *)
(* ------------------------------------------------------------------ *)

Lemma error_result_exclusive (p m : string) : exclusive (_error_result p m).
Proof. intros _. repeat split. Qed.

Lemma no_error_exclusive (r : ScrapeResult) : error r = None -> exclusive r.
Proof. intros H E. contradiction. Qed.

Lemma reddit_result_no_error (post : pyval) (r : ScrapeResult) :
  reddit_result post = Ret r -> error r = None.
Proof.
  unfold reddit_result. intros H. obind_inv H.
  inversion H; reflexivity.
Qed.

Lemma scrape_reddit_exclusive (w : World) (url : string) :
  ensures (scrape_reddit w url) exclusive.
Proof.
  unfold scrape_reddit.
  apply ensures_bind with (Q := on_return exclusive (fun _ => True)).
  - ens; first [ exact I | apply error_result_exclusive ].
  - intros [failed|response] Hq; [ens; exact Hq|].
    apply ensures_bind with (Q := on_return exclusive (fun _ => True)).
    + apply ensures_try; [|intro; ens; apply error_result_exclusive].
      apply ensures_lift. intros a Ha. obind_inv Ha.
      inversion Ha; exact I.
    + intros [failed|post] Hp; [ens; exact Hp|].
      apply ensures_lift. intros r Hr.
      apply no_error_exclusive. exact (reddit_result_no_error _ _ Hr).
Qed.

Lemma scrape_youtube_exclusive (w : World) (url : string) :
  ensures (scrape_youtube w url) exclusive.
Proof.
  unfold scrape_youtube.
  apply ensures_then; intros imported.
  destruct (negb imported); [ens; apply error_result_exclusive|].
  apply ensures_bind with (Q := on_return exclusive (fun _ => True)).
  - ens; first [ exact I | apply error_result_exclusive ].
  - intros [failed|info] H; [ens; exact H|].
    ens. apply no_error_exclusive. reflexivity.
Qed.

Lemma extracted_error_tidy (m : string) : tidy (extracted_error m).
Proof. intros _. repeat split. Qed.

Lemma extracted_content_tidy (t a : string) (i v : list string) :
  tidy (extracted_content t a i v).
Proof. intros H. simpl in H. contradiction. Qed.

Lemma extracted_empty_tidy : tidy extracted_empty.
Proof. intros H. simpl in H. contradiction. Qed.

Lemma extract_twitter_tidy (w : World) (url : string) :
  ensures (_extract_twitter w url) tidy.
Proof.
  unfold _extract_twitter.
  ens; first [ apply extracted_error_tidy | apply extracted_content_tidy ].
Qed.

Lemma extract_instagram_tidy (w : World) (url : string) :
  ensures (_extract_instagram w url) tidy.
Proof. unfold _extract_instagram. ens; apply extracted_content_tidy. Qed.

Lemma extract_facebook_tidy (w : World) (url : string) :
  ensures (_extract_facebook w url) tidy.
Proof. unfold _extract_facebook. ens; apply extracted_content_tidy. Qed.

Lemma browser_session_exclusive (w : World) (url p : string) :
  ensures (browser_session w url p) (on_return exclusive tidy).
Proof.
  unfold browser_session.
  do 3 (apply ensures_then; intro).
  apply ensures_bind with (Q := fun failed => match failed with
                                              | Some r => exclusive r
                                              | None => True
                                              end).
  { ens; first [ exact I | apply error_result_exclusive ]. }
  intros [r|] Hr; [ens; exact Hr|].
  do 2 (apply ensures_then; intro).
  apply ensures_bind with (Q := fun timed_out => match timed_out with
                                                 | Some r => exclusive r
                                                 | None => True
                                                 end).
  { destruct (_is_login_page _ _);
      ens; first [ exact I | apply error_result_exclusive ]. }
  intros [r|] Hr'; [ens; exact Hr'|].
  do 2 (apply ensures_then; intro).
  apply ensures_bind with (Q := tidy).
  { apply ensures_try.
    - destruct (String.eqb p "twitter"); [apply extract_twitter_tidy|].
      destruct (String.eqb p "instagram"); [apply extract_instagram_tidy|].
      destruct (String.eqb p "facebook"); [apply extract_facebook_tidy|].
      ens; apply extracted_empty_tidy.
    - intro e. ens. apply extracted_error_tidy. }
  intros x Hx. ens. exact Hx.
Qed.

Lemma scrape_playwright_exclusive (w : World) (url p : string) :
  ensures (scrape_playwright w url p) exclusive.
Proof.
  unfold scrape_playwright.
  destruct (IS_SERVER w); [ens; apply error_result_exclusive|].
  apply ensures_then; intros imported.
  destruct (negb imported); [ens; apply error_result_exclusive|].
  apply ensures_bind with (Q := on_return exclusive tidy).
  { apply ensures_with. apply browser_session_exclusive. }
  intros [r|x] H; simpl in H; ens; [exact H|].
  intros E. simpl in E. destruct (H E) as (Ht & Hi & Hv).
  simpl. rewrite Ht, Hi, Hv. repeat split.
Qed.

Lemma scrapers_entry (w : World) (p : string) (r : retriever) :
  table_lookup p (scrapers w) = Some r ->
  (r = OfUrl (scrape_reddit w) /\ p = "reddit")
  \/ (r = OfUrl (scrape_youtube w) /\ p = "youtube")
  \/ (r = OfUrlAndPlatform (scrape_playwright w)
      /\ In p ["twitter"; "instagram"; "facebook"]).
Proof.
  unfold scrapers, table_lookup.
  repeat match goal with
         | |- context [String.eqb p ?k] =>
             destruct (String.eqb_spec p k); [subst p|]
         end;
    intros H; inversion H; subst; simpl; auto 10.
Qed.

(* ------------------------------------------------------------------ *)
(** * The dispatcher and the retrievers *)
(* ------------------------------------------------------------------ *)

Section Scraper.

Context {lib : PyLib}.

Lemma scrape_exclusive (w : World) (url : string) :
  ensures (scrape w url) exclusive.
Proof.
  unfold scrape, dispatch. apply ensures_then; intros p.
  destruct (String.eqb p "unknown"); [ens; apply error_result_exclusive|].
  destruct (table_lookup p (scrapers w)) as [r|] eqn:E; [|ens].
  destruct (scrapers_entry _ _ _ E) as [[-> _]|[[-> _]|[-> _]]];
    destruct (in_tuple p _);
    first [ apply scrape_reddit_exclusive
          | apply scrape_youtube_exclusive
          | apply scrape_playwright_exclusive
          | apply ensures_throw ].
Qed.

(** C1.  Whatever the outside answers, a result that [scrape] returns with
    an error carries no content: its text is empty and it lists no image
    and no video. *)
Theorem scrape_error_excludes_content :
  forall (w : World) (url : string) (log log' : list event) (r : ScrapeResult),
    scrape w url log = (log', Ret r) ->
    error r <> None ->
    text r = "" /\ image_urls r = [] /\ video_urls r = [].
Proof.
  intros w url log log' r Hrun Herr.
  exact (scrape_exclusive w url log log' r Hrun Herr).
Qed.

(** A failure to start the browser is not caught by [scrape_playwright]:
    the call to [launch_persistent_context] stands outside of every [try]. *)
Lemma launch_failure_propagates (w : World) (url p : string)
      (log : list event) (e : exn) :
  IS_SERVER w = false ->
  import_module w (List.length log) "playwright.sync_api" = Ret tt ->
  playwright_start w (S (List.length log)) = Ret tt ->
  launch_persistent_context w (S (S (List.length log)))
                            (os_path_join (SESSIONS_DIR w) p) = Raise e ->
  snd (scrape_playwright w url p log) = Raise e.
Proof.
  intros Hs Hi Hp Hl.
  unfold scrape_playwright, with_sync_playwright, browser_session,
    try_except, bind, call, ret.
  rewrite Hs, Hi. simpl. rewrite Hp. simpl. rewrite Hl. reflexivity.
Qed.

(** C2 (the code departs from the claim).  On a desktop machine whose
    browser cannot be started, [scrape] of a post on X does not return a
    result: the exception of the launch reaches the caller. *)
Theorem scrape_raises_when_browser_cannot_start :
  snd (scrape no_browser "https://x.com/someone/status/1" [])
  = Raise (mk_exn PlaywrightError "Executable doesn't exist").
Proof. reflexivity. Qed.

(** Nor is the [ValueError] of [urlparse]: [scrape] calls
    [detect_platform] outside of every [try]. *)
Lemma scrape_raises_on_unmatched_bracket (w : World) (log : list event) :
  scrape w "http://[" log = (log, Raise invalid_ipv6).
Proof. reflexivity. Qed.

(** A JSON document of an unexpected shape makes [scrape_reddit] raise
    [TypeError], which its handler does not name. *)
Lemma scrape_reddit_raises_on_list_of_strings :
  raises (snd (scrape
                 (staged false (Ret {| status_code := 200;
                                       reason := "OK";
                                       response_url := "https://www.reddit.com/r/pics/comments/1.json";
                                       json_body := Ret (PList [PStr "x"]) |})
                         (Ret tt) [] (fun _ => None) [])
                 "https://www.reddit.com/r/pics/comments/1/" []))
         TypeError.
Proof. eexists. reflexivity. Qed.

(** C5 (the code departs from the claim).  [detect_platform] raises
    [ValueError] on a URL whose network location opens a bracket and does
    not close it. *)
Theorem detect_platform_raises_on_unmatched_bracket :
  detect_platform "http://[" = Raise invalid_ipv6.
Proof. reflexivity. Qed.

Lemma check_bracketed_netloc_value_error (netloc : string) (e : exn) :
  _check_bracketed_netloc netloc = Raise e -> exn_cls e = ValueError.
Proof.
  unfold _check_bracketed_netloc, _check_bracketed_host, invalid_ipv6.
  repeat match goal with
         | |- context [match ?x with _ => _ end] => destruct x
         end;
    intros H; inversion H; reflexivity.
Qed.

Lemma urlparse_netloc_value_error (url : string) (e : exn) :
  urlparse_netloc url = Raise e -> exn_cls e = ValueError.
Proof.
  unfold urlparse_netloc, _checknetloc. simpl.
  destruct (String.eqb _ "//"); [|discriminate].
  destruct (_ || _); [intros H; inversion H; reflexivity|].
  destruct (_ && _); [|discriminate].
  destruct (_check_bracketed_netloc _) eqn:E; [discriminate|].
  simpl. intros H; inversion H; subst.
  exact (check_bracketed_netloc_value_error _ _ E).
Qed.

(** Apart from that, [detect_platform] is a function into the six
    identifiers, and a host that passes none of its tests is unknown. *)
Lemma detect_platform_range (url : string) :
  (exists p, detect_platform url = Ret p
             /\ In p ["twitter"; "reddit"; "youtube"; "instagram";
                      "facebook"; "unknown"])
  \/ raises (detect_platform url) ValueError.
Proof.
  unfold detect_platform, normalized_host.
  destruct (urlparse_netloc (lower url)) as [netloc|[c m]] eqn:E; simpl.
  - left. eexists; split; [reflexivity|].
    unfold platform_of_host.
    repeat match goal with
           | |- context [if ?b then _ else _] => destruct b
           end; simpl; auto 10.
  - right. apply urlparse_netloc_value_error in E. simpl in E. subst c.
    exists m. reflexivity.
Qed.

Lemma unmatched_host_is_unknown (url host : string) :
  normalized_host url = Ret host ->
  in_tuple host ["twitter.com"; "x.com"; "mobile.twitter.com"] = false ->
  contains "reddit.com" host = false ->
  in_tuple host ["youtube.com"; "youtu.be"; "m.youtube.com"] = false ->
  contains "instagram.com" host = false ->
  contains "facebook.com" host = false ->
  String.eqb host "fb.com" = false ->
  detect_platform url = Ret "unknown".
Proof.
  intros H H1 H2 H3 H4 H5 H6. unfold detect_platform. rewrite H. simpl.
  unfold platform_of_host. rewrite H1, H2, H3, H4, H5, H6. reflexivity.
Qed.

(** For a URL on which [detect_platform] returns the identifier of no
    platform, [scrape] returns at once, without any external call: the
    result has an error that names the supported platforms, and every
    content field is empty. *)
Theorem scrape_unknown_platform :
  forall (w : World) (url : string) (log : list event),
    detect_platform url = Ret "unknown" ->
    exists r,
      scrape w url log = (log, Ret r)
      /\ error r = Some unrecognized_url
      /\ forallb (fun name => contains name unrecognized_url)
                 ["X/Twitter"; "Reddit"; "YouTube"; "Instagram"; "Facebook"]
         = true
      /\ text r = "" /\ author r = PStr "" /\ image_urls r = []
      /\ video_urls r = [] /\ timestamp r = PStr "".
Proof.
  intros w url log H.
  exists (_error_result "unknown" unrecognized_url).
  unfold scrape, bind, lift. rewrite H. simpl.
  repeat split.
Qed.

(** C6 (the code departs from the claim).  The host of the URL below is the
    host of no supported platform, and [scrape] returns no result for it,
    on any machine: [urlparse] raises [ValueError] on the bracket that is
    closed and never opened, [detect_platform] has no handler, and [scrape]
    calls it outside of every [try].  This is the defect of C5, seen from
    [scrape]. *)
Theorem scrape_raises_on_unrecognized_bracketed_host :
  forall (w : World) (log : list event),
    platform_of_host "example.com]" = "unknown"
    /\ scrape w "https://example.com]/post/1" log = (log, Raise invalid_ipv6).
Proof. intros w log. split; reflexivity. Qed.

End Scraper.

(** The invariant at work: a Reddit post that is not found. *)
Lemma scrape_error_excludes_content_witness :
  scrape (lib := reference_lib) no_browser
         "https://www.reddit.com/r/pics/comments/1/?sort=new" []
  = ([EHttpGet "https://www.reddit.com/r/pics/comments/1.json"],
     Ret (_error_result "reddit" not_found_message))
  /\ (text (_error_result "reddit" not_found_message) = ""
      /\ image_urls (_error_result "reddit" not_found_message) = []
      /\ video_urls (_error_result "reddit" not_found_message) = []).
Proof.
  split; [reflexivity|].
  apply (scrape_error_excludes_content (lib := reference_lib) no_browser
           "https://www.reddit.com/r/pics/comments/1/?sort=new" []
           [EHttpGet "https://www.reddit.com/r/pics/comments/1.json"]).
  - reflexivity.
  - discriminate.
Defined.

(** A URL of an unknown host, on a server. *)
Lemma scrape_unknown_platform_witness :
  detect_platform (lib := reference_lib) "https://example.com/post/1"
  = Ret "unknown"
  /\ exists r,
      scrape (lib := reference_lib) on_server "https://example.com/post/1" []
      = ([], Ret r)
      /\ error r = Some unrecognized_url
      /\ forallb (fun name => contains name unrecognized_url)
                 ["X/Twitter"; "Reddit"; "YouTube"; "Instagram"; "Facebook"]
         = true
      /\ text r = "" /\ author r = PStr "" /\ image_urls r = []
      /\ video_urls r = [] /\ timestamp r = PStr "".
Proof.
  split; [reflexivity|].
  apply (scrape_unknown_platform (lib := reference_lib) on_server
           "https://example.com/post/1" []).
  reflexivity.
Defined.

(* ------------------------------------------------------------------ *)
(** * Image URLs and their repetitions *)
(* ------------------------------------------------------------------ *)

Lemma in_tuple_true (x : string) (t : list string) :
  in_tuple x t = true -> In x t.
Proof.
  unfold in_tuple. rewrite existsb_exists. intros (y & Hy & E).
  apply String.eqb_eq in E. subst. exact Hy.
Qed.

Lemma in_tuple_false (x : string) (t : list string) :
  in_tuple x t = false -> ~ In x t.
Proof.
  intros H Hin. assert (E : in_tuple x t = true).
  { unfold in_tuple. rewrite existsb_exists. exists x. split; [exact Hin|].
    apply String.eqb_refl. }
  congruence.
Qed.

Lemma PStr_injective : Injective PStr.
Proof. intros a b H. inversion H. reflexivity. Qed.

Lemma add_preview_grows (l l' : list string) (img : pyval) :
  add_preview l img = Ret l' -> NoDup l -> NoDup l' /\ incl l l'.
Proof.
  unfold add_preview. intros H Hl.
  apply obind_ret in H; destruct H as (source & _ & H); cbv beta in H.
  apply obind_ret in H; destruct H as (u & _ & H); cbv beta in H.
  apply obind_ret in H; destruct H as (src & _ & H); cbv beta in H.
  destruct (negb (String.eqb src "") && negb (in_tuple src l)) eqn:E;
    inversion H; subst.
  - apply andb_prop in E. destruct E as [_ E].
    apply negb_true_iff, in_tuple_false in E. split.
    + apply NoDup_app; [exact Hl | repeat constructor; intros [] |].
      intros a Ha [<-|[]]. exact (E Ha).
    + apply incl_appl, incl_refl.
  - split; [exact Hl | apply incl_refl].
Qed.

Lemma add_previews_grows (imgs : list pyval) :
  forall l l', add_previews l imgs = Ret l' -> NoDup l -> NoDup l' /\ incl l l'.
Proof.
  induction imgs as [|img rest IH]; simpl; intros l l' H Hl.
  - inversion H; subst. split; [exact Hl | apply incl_refl].
  - apply obind_ret in H. destruct H as (l1 & H1 & H2).
    destruct (add_preview_grows _ _ _ H1 Hl) as [N1 I1].
    destruct (IH _ _ H2 N1) as [N2 I2].
    split; [exact N2 | exact (incl_tran I1 I2)].
Qed.

Lemma reddit_direct_image_spec (post : pyval) (l : list string) :
  reddit_direct_image post = Ret l ->
  NoDup l
  /\ forall u, Py.get post "url" (PStr "") = Ret (PStr u) ->
               image_ext_search u = true -> In u l.
Proof.
  unfold reddit_direct_image. intros H.
  apply obind_ret in H; destruct H as (post_url & Hget & H); cbv beta in H.
  apply obind_ret in H; destruct H as (is_image & Hre & H); cbv beta in H.
  destruct post_url as [| | | |u0| |]; simpl in Hre; try discriminate.
  inversion Hre; subst is_image. inversion H; subst l. split.
  - destruct (image_ext_search u0); repeat constructor; intros [].
  - intros u Hu Hs. rewrite Hget in Hu. inversion Hu; subst u0.
    rewrite Hs. left; reflexivity.
Qed.

(** The images of a Reddit result: no URL twice, and the direct image link
    among them. *)
Lemma reddit_result_images (post : pyval) (r : ScrapeResult) :
  reddit_result post = Ret r ->
  exists l, image_urls r = map PStr l
            /\ NoDup l
            /\ forall u, Py.get post "url" (PStr "") = Ret (PStr u) ->
                         image_ext_search u = true -> In u l.
Proof.
  unfold reddit_result. intros H.
  apply obind_ret in H; destruct H as (title & _ & H); cbv beta zeta in H.
  apply obind_ret in H; destruct H as (body & _ & H); cbv beta zeta in H.
  apply obind_ret in H; destruct H as (direct & Hd & H); cbv beta zeta in H.
  apply obind_ret in H; destruct H as (videos & _ & H); cbv beta zeta in H.
  apply obind_ret in H; destruct H as (previews & _ & H); cbv beta zeta in H.
  apply obind_ret in H; destruct H as (images & Hi & H); cbv beta zeta in H.
  obind_inv H. inversion H; subst r; simpl.
  destruct (reddit_direct_image_spec _ _ Hd) as [Nd Id].
  destruct (add_previews_grows _ _ _ Hi Nd) as [Ni Ii].
  exists images. split; [reflexivity|]. split; [exact Ni|].
  intros u Hu Hs. apply Ii. exact (Id u Hu Hs).
Qed.

Lemma count_url_once (u : string) (l : list string) :
  NoDup l -> In u l -> count_url u (map PStr l) = 1.
Proof.
  unfold count_url. induction l as [|a l IH]; simpl; intros N Hin; [contradiction|].
  inversion N as [|? ? Hna Nl]; subst.
  destruct (String.eqb_spec a u) as [->|Hne]; simpl.
  - f_equal. clear IH N Nl Hin.
    induction l as [|b l IH]; simpl; [reflexivity|].
    destruct (String.eqb_spec b u) as [->|_].
    + exfalso. apply Hna. left; reflexivity.
    + apply IH. intros Hin. apply Hna. right; exact Hin.
  - destruct Hin as [->|Hin]; [contradiction|]. exact (IH Nl Hin).
Qed.

Lemma scrape_reddit_images (w : World) (url : string) :
  ensures (scrape_reddit w url) (fun r => NoDup (image_urls r)).
Proof.
  unfold scrape_reddit.
  apply ensures_bind
    with (Q := on_return (fun r => NoDup (image_urls r)) (fun _ => True)).
  - ens; first [ exact I | constructor ].
  - intros [failed|response] Hq; [ens; exact Hq|].
    apply ensures_bind
      with (Q := on_return (fun r => NoDup (image_urls r)) (fun _ => True)).
    + apply ensures_try; [|intro; ens; constructor].
      apply ensures_lift. intros a Ha. obind_inv Ha. inversion Ha; exact I.
    + intros [failed|post] Hp; [ens; exact Hp|].
      apply ensures_lift. intros r Hr.
      destruct (reddit_result_images _ _ Hr) as (l & -> & N & _).
      exact (Injective_map_NoDup PStr_injective N).
Qed.

Lemma scrape_youtube_images (w : World) (url : string) :
  ensures (scrape_youtube w url) (fun r => NoDup (image_urls r)).
Proof.
  unfold scrape_youtube.
  apply ensures_then; intros imported.
  destruct (negb imported); [ens; constructor|].
  apply ensures_bind
    with (Q := on_return (fun r => NoDup (image_urls r)) (fun _ => True)).
  - ens; first [ exact I | constructor ].
  - intros [failed|info] H; [ens; exact H|].
    ens. simpl. destruct (Py.truthy _); repeat constructor. intros [].
Qed.

Lemma og_image_at_most_one (w : World) (og_image : option elem) :
  ensures (match og_image with
           | Some el => c <- content_or_empty w el ;; ret [c]
           | None => ret []
           end)
          (fun l : list string => NoDup l).
Proof. destruct og_image; ens; repeat constructor. intros []. Qed.

Lemma extract_instagram_images (w : World) (url : string) :
  ensures (_extract_instagram w url)
          (fun x => NoDup (get_or (x_image_urls x) [])).
Proof.
  unfold _extract_instagram.
  do 5 (apply ensures_then; intro).
  apply ensures_bind with (Q := fun l : list string => NoDup l);
    [apply og_image_at_most_one|].
  intros l Hl. ens. exact Hl.
Qed.

Lemma extract_facebook_images (w : World) (url : string) :
  ensures (_extract_facebook w url)
          (fun x => NoDup (get_or (x_image_urls x) [])).
Proof.
  unfold _extract_facebook.
  do 7 (apply ensures_then; intro).
  apply ensures_bind with (Q := fun l : list string => NoDup l);
    [apply og_image_at_most_one|].
  intros l Hl. ens. exact Hl.
Qed.

Lemma browser_session_images (w : World) (url p : string) :
  p <> "twitter" ->
  ensures (browser_session w url p)
          (on_return (fun r => NoDup (image_urls r))
                     (fun x => NoDup (get_or (x_image_urls x) []))).
Proof.
  intros Hp. unfold browser_session.
  do 3 (apply ensures_then; intro).
  apply ensures_bind with (Q := fun failed => match failed with
                                              | Some r => NoDup (image_urls r)
                                              | None => True
                                              end).
  { ens; first [ exact I | constructor ]. }
  intros [r|] Hr; [ens; exact Hr|].
  do 2 (apply ensures_then; intro).
  apply ensures_bind with (Q := fun timed_out => match timed_out with
                                                 | Some r => NoDup (image_urls r)
                                                 | None => True
                                                 end).
  { destruct (_is_login_page _ _); ens; first [ exact I | constructor ]. }
  intros [r|] Hr'; [ens; exact Hr'|].
  do 2 (apply ensures_then; intro).
  apply ensures_bind with (Q := fun x => NoDup (get_or (x_image_urls x) [])).
  { apply ensures_try.
    - destruct (String.eqb_spec p "twitter"); [contradiction|].
      destruct (String.eqb p "instagram"); [apply extract_instagram_images|].
      destruct (String.eqb p "facebook"); [apply extract_facebook_images|].
      ens; constructor.
    - intro e. ens. constructor. }
  intros x Hx. ens. exact Hx.
Qed.

Lemma scrape_playwright_images (w : World) (url p : string) :
  ensures (scrape_playwright w url p)
          (fun r => platform r <> "twitter" -> NoDup (image_urls r)).
Proof.
  unfold scrape_playwright.
  destruct (IS_SERVER w); [ens; intros _; constructor|].
  apply ensures_then; intros imported.
  destruct (negb imported); [ens; intros _; constructor|].
  destruct (String.eqb_spec p "twitter") as [->|Hp].
  - apply ensures_bind with (Q := on_return (fun r => platform r <> "twitter" -> NoDup (image_urls r)) (fun _ => True)).
    + apply ensures_with. unfold browser_session.
      do 3 (apply ensures_then; intro).
      apply ensures_bind with (Q := fun failed => match failed with
                                                  | Some r => NoDup (image_urls r)
                                                  | None => True
                                                  end).
      { ens; first [ exact I | constructor ]. }
      intros [r|] Hr; [ens; intros _; exact Hr|].
      do 2 (apply ensures_then; intro).
      apply ensures_bind with (Q := fun timed_out => match timed_out with
                                                     | Some r => NoDup (image_urls r)
                                                     | None => True
                                                     end).
      { destruct (_is_login_page _ _); ens; first [ exact I | constructor ]. }
      intros [r|] Hr'; [ens; intros _; exact Hr'|].
      ens; exact I.
    + intros [r|x] H; simpl in H; ens; [exact H|].
      simpl. intros Hne. contradiction.
  - apply ensures_bind
      with (Q := on_return (fun r => NoDup (image_urls r))
                           (fun x => NoDup (get_or (x_image_urls x) []))).
    + apply ensures_with. apply browser_session_images. exact Hp.
    + intros [r|x] H; simpl in H; ens; intros _; [exact H|].
      simpl. exact (Injective_map_NoDup PStr_injective H).
Qed.

Section Routing.

Context {lib : PyLib}.

Lemma scrape_images (w : World) (url : string) :
  ensures (scrape w url)
          (fun r => platform r <> "twitter" -> NoDup (image_urls r)).
Proof.
  unfold scrape, dispatch. apply ensures_then; intros p.
  destruct (String.eqb p "unknown"); [ens; intros _; constructor|].
  destruct (table_lookup p (scrapers w)) as [r|] eqn:E; [|ens].
  destruct (scrapers_entry _ _ _ E) as [[-> _]|[[-> _]|[-> _]]];
    destruct (in_tuple p _);
    first [ apply ensures_throw
          | apply scrape_playwright_images
          | eapply ensures_weaken;
            [ first [ apply scrape_reddit_images | apply scrape_youtube_images ]
            | intros r0 H _; exact H ] ].
Qed.

(** C4, as the code has it.  A result of [scrape] whose platform is not X
    (one of the Reddit, YouTube, Instagram or Facebook retriever, or the
    result for an unrecognized URL), and every result that reports an
    error, lists no image URL twice; and the Reddit retriever lists the
    direct image link of a post exactly once, whatever the previews are,
    the same URL among them or not.  Nothing is stated of a result of the X
    retriever without error: its list can hold a URL twice. *)
Theorem image_urls_listed_once :
  (forall (w : World) (url : string) (log log' : list event) (r : ScrapeResult),
      scrape w url log = (log', Ret r) ->
      platform r <> "twitter" \/ error r <> None ->
      NoDup (image_urls r))
  /\ (forall (post : pyval) (r : ScrapeResult) (u : string),
        reddit_result post = Ret r ->
        Py.get post "url" (PStr "") = Ret (PStr u) ->
        image_ext_search u = true ->
        count_url u (image_urls r) = 1).
Proof.
  split.
  - intros w url log log' r Hrun [Hp|He].
    + exact (scrape_images w url log log' r Hrun Hp).
    + destruct (scrape_exclusive w url log log' r Hrun He) as (_ & -> & _).
      constructor.
  - intros post r u Hr Hu Hs.
    destruct (reddit_result_images _ _ Hr) as (l & -> & N & Hin).
    apply count_url_once; [exact N | exact (Hin u Hu Hs)].
Qed.

(** What [scrape_reddit] returns without an error is [reddit_result] of a
    post. *)
Lemma scrape_reddit_success (w : World) (url : string) :
  ensures (scrape_reddit w url)
          (fun r => error r = None -> exists post, reddit_result post = Ret r).
Proof.
  unfold scrape_reddit.
  apply ensures_bind
    with (Q := on_return (fun r => error r <> None) (fun _ => True)).
  - ens; first [ exact I | simpl; discriminate ].
  - intros [failed|response] Hq; [ens; intros E; contradiction|].
    apply ensures_bind
      with (Q := on_return (fun r => error r <> None) (fun _ => True)).
    + apply ensures_try; [|intro; ens; simpl; discriminate].
      apply ensures_lift. intros a Ha. obind_inv Ha. inversion Ha; exact I.
    + intros [failed|post] Hp; [ens; intros E; contradiction|].
      apply ensures_lift. intros r Hr _. exists post. exact Hr.
Qed.


Lemma reddit_not_exact (host : string) :
  contains "reddit.com" host = true ->
  in_tuple host ["twitter.com"; "x.com"; "mobile.twitter.com"] = false.
Proof.
  intros H. destruct (in_tuple host _) eqn:E; [|reflexivity].
  apply in_tuple_true in E.
  destruct E as [<-|[<-|[<-|[]]]]; discriminate H.
Qed.

Lemma instagram_not_exact (host : string) :
  contains "instagram.com" host = true ->
  in_tuple host ["twitter.com"; "x.com"; "mobile.twitter.com"] = false
  /\ in_tuple host ["youtube.com"; "youtu.be"; "m.youtube.com"] = false.
Proof.
  intros H. split.
  - destruct (in_tuple host _) eqn:E; [|reflexivity].
    apply in_tuple_true in E.
    destruct E as [<-|[<-|[<-|[]]]]; discriminate H.
  - destruct (in_tuple host _) eqn:E; [|reflexivity].
    apply in_tuple_true in E.
    destruct E as [<-|[<-|[<-|[]]]]; discriminate H.
Qed.

Lemma facebook_not_exact (host : string) :
  contains "facebook.com" host = true ->
  in_tuple host ["twitter.com"; "x.com"; "mobile.twitter.com"] = false
  /\ in_tuple host ["youtube.com"; "youtu.be"; "m.youtube.com"] = false.
Proof.
  intros H. split.
  - destruct (in_tuple host _) eqn:E; [|reflexivity].
    apply in_tuple_true in E.
    destruct E as [<-|[<-|[<-|[]]]]; discriminate H.
  - destruct (in_tuple host _) eqn:E; [|reflexivity].
    apply in_tuple_true in E.
    destruct E as [<-|[<-|[<-|[]]]]; discriminate H.
Qed.

(** C10, as the code has it.  Detection of Reddit, Instagram and Facebook
    is by containment, and the tests come in that order: a host that
    contains [reddit.com] is Reddit's; one that contains [instagram.com]
    and not [reddit.com] is Instagram's; one that contains [facebook.com]
    and neither of the two is Facebook's.  [scrape] runs the retriever of
    the platform detected. *)
Theorem substring_detection :
  forall (w : World) (url host : string),
    normalized_host url = Ret host ->
    (contains "reddit.com" host = true ->
     detect_platform url = Ret "reddit"
     /\ forall log, scrape w url log = scrape_reddit w url log)
    /\ (contains "reddit.com" host = false ->
        contains "instagram.com" host = true ->
        detect_platform url = Ret "instagram"
        /\ forall log, scrape w url log = scrape_playwright w url "instagram" log)
    /\ (contains "reddit.com" host = false ->
        contains "instagram.com" host = false ->
        contains "facebook.com" host = true ->
        detect_platform url = Ret "facebook"
        /\ forall log, scrape w url log = scrape_playwright w url "facebook" log).
Proof.
  intros w url host Hh.
  assert (Hd : detect_platform url = Ret (platform_of_host host)).
  { unfold detect_platform. rewrite Hh. reflexivity. }
  assert (Hs : forall p log, detect_platform url = Ret p ->
                             scrape w url log = dispatch w url p log).
  { intros p log Hp. unfold scrape, bind, lift. rewrite Hp. reflexivity. }
  split; [|split].
  - intros H.
    assert (E : platform_of_host host = "reddit").
    { unfold platform_of_host. rewrite (reddit_not_exact _ H), H. reflexivity. }
    rewrite E in Hd. split; [exact Hd|].
    intros log. rewrite (Hs "reddit" log Hd). reflexivity.
  - intros H H0.
    assert (E : platform_of_host host = "instagram").
    { unfold platform_of_host.
      destruct (instagram_not_exact _ H0) as [-> ->]. rewrite H, H0.
      reflexivity. }
    rewrite E in Hd. split; [exact Hd|].
    intros log. rewrite (Hs "instagram" log Hd). reflexivity.
  - intros H H0 H1.
    assert (E : platform_of_host host = "facebook").
    { unfold platform_of_host.
      destruct (facebook_not_exact _ H1) as [-> ->]. rewrite H, H0, H1.
      reflexivity. }
    rewrite E in Hd. split; [exact Hd|].
    intros log. rewrite (Hs "facebook" log Hd). reflexivity.
Qed.

End Routing.

(** The X retriever on a post that shows one photograph twice: the URL is
    listed twice. *)
Lemma twitter_lists_a_photo_twice :
  option_map image_urls
             (returned (scrape (lib := reference_lib) same_photo_twice
                               "https://x.com/someone/status/1" []))
  = Some [PStr "https://pbs.twimg.com/media/a?format=jpg&name=large";
          PStr "https://pbs.twimg.com/media/a?format=jpg&name=large"]
  /\ ~ NoDup [PStr "https://pbs.twimg.com/media/a?format=jpg&name=large";
              PStr "https://pbs.twimg.com/media/a?format=jpg&name=large"].
Proof.
  split; [reflexivity|].
  intros N. inversion N as [|? ? Hn _]. apply Hn. left; reflexivity.
Qed.

(** A Reddit post whose direct image link is also its first preview. *)
Lemma image_urls_listed_once_witness :
  (exists log' r,
      scrape (lib := reference_lib) serving_image_post
             "https://www.reddit.com/r/pics/comments/1/" [] = (log', Ret r)
      /\ platform r <> "twitter"
      /\ NoDup (image_urls r))
  /\ (exists r,
        reddit_result image_post = Ret r
        /\ Py.get image_post "url" (PStr "") = Ret (PStr "https://i.redd.it/a.jpg")
        /\ image_ext_search "https://i.redd.it/a.jpg" = true
        /\ image_urls r = [PStr "https://i.redd.it/a.jpg";
                           PStr "https://preview.redd.it/a.jpg?s=1&w=2"]
        /\ count_url "https://i.redd.it/a.jpg" (image_urls r) = 1).
Proof.
  split.
  - eexists. eexists.
    assert (E : scrape (lib := reference_lib) serving_image_post
                       "https://www.reddit.com/r/pics/comments/1/" []
                = (_, Ret _)) by reflexivity.
    split; [exact E|]. split; [discriminate|].
    apply (proj1 (image_urls_listed_once (lib := reference_lib)) _ _ _ _ _ E).
    left. discriminate.
  - eexists.
    assert (E : reddit_result image_post = Ret _) by reflexivity.
    split; [exact E|]. split; [reflexivity|]. split; [reflexivity|].
    split; [reflexivity|].
    apply (proj2 (image_urls_listed_once (lib := reference_lib)) _ _ _ E);
      reflexivity.
Defined.


(** A host that contains [instagram.com] and is detected as Reddit's. *)
Lemma instagram_name_on_a_reddit_host :
  normalized_host (lib := reference_lib) "https://instagram.com.reddit.com/p/1"
  = Ret "instagram.com.reddit.com"
  /\ contains "instagram.com" "instagram.com.reddit.com" = true
  /\ detect_platform (lib := reference_lib) "https://instagram.com.reddit.com/p/1"
     = Ret "reddit".
Proof. repeat split. Qed.

(** Three hosts that merely contain the name of a platform. *)
Lemma substring_detection_witness :
  (normalized_host (lib := reference_lib) "https://reddit.com.attacker.example/r/x"
   = Ret "reddit.com.attacker.example"
   /\ detect_platform (lib := reference_lib)
                      "https://reddit.com.attacker.example/r/x" = Ret "reddit"
   /\ scrape (lib := reference_lib) on_server
             "https://reddit.com.attacker.example/r/x" []
      = scrape_reddit on_server "https://reddit.com.attacker.example/r/x" [])
  /\ (detect_platform (lib := reference_lib)
                      "https://www.instagram.com.attacker.example/p/1"
      = Ret "instagram"
      /\ scrape (lib := reference_lib) on_server
                "https://www.instagram.com.attacker.example/p/1" []
         = scrape_playwright on_server
                             "https://www.instagram.com.attacker.example/p/1"
                             "instagram" [])
  /\ (detect_platform (lib := reference_lib)
                      "https://m.facebook.com:443/story/1" = Ret "facebook"
      /\ scrape (lib := reference_lib) on_server
                "https://m.facebook.com:443/story/1" []
         = scrape_playwright on_server "https://m.facebook.com:443/story/1"
                             "facebook" []).
Proof.
  split; [|split].
  - split; [reflexivity|].
    destruct (proj1 (substring_detection (lib := reference_lib) on_server
                       "https://reddit.com.attacker.example/r/x"
                       "reddit.com.attacker.example" eq_refl) eq_refl)
      as [Hd Hs].
    split; [exact Hd | exact (Hs [])].
  - destruct (proj1 (proj2 (substring_detection (lib := reference_lib) on_server
                       "https://www.instagram.com.attacker.example/p/1"
                       "instagram.com.attacker.example" eq_refl))
                    eq_refl eq_refl)
      as [Hd Hs].
    split; [exact Hd | exact (Hs [])].
  - destruct (proj2 (proj2 (substring_detection (lib := reference_lib) on_server
                       "https://m.facebook.com:443/story/1"
                       "m.facebook.com:443" eq_refl))
                    eq_refl eq_refl eq_refl)
      as [Hd Hs].
    split; [exact Hd | exact (Hs [])].
Defined.

(* ------------------------------------------------------------------ *)
(** * The reply of the language model *)
(* ------------------------------------------------------------------ *)

Section Claims.

Context {lib : PyLib}.

(** A reply that opens with a fence and has a line break loses its first
    line and what follows its last fence. *)
Lemma strip_fence_fenced (raw_text first rest : string) :
  startswith fence raw_text = true ->
  split1 nl raw_text = [first; rest] ->
  strip_fence raw_text = Ret (strip (hd "" (rsplit1 fence rest))).
Proof. intros Hf Hs. unfold strip_fence. rewrite Hf, Hs. reflexivity. Qed.

Lemma strip_fence_plain (raw_text : string) :
  startswith fence raw_text = false -> strip_fence raw_text = Ret raw_text.
Proof. intros Hf. unfold strip_fence. rewrite Hf. reflexivity. Qed.

(** When the text left after the fences is not JSON, the result is the
    fallback dictionary: no claim, that text as the summary, and the
    explanation as the error. *)
Lemma parse_reply_fallback (raw_text body : string) (e : exn) :
  strip_fence raw_text = Ret body ->
  json_loads body = Raise e ->
  issubclass (exn_cls e) JSONDecodeError = true ->
  parse_reply raw_text
  = Ret (PDict [ ("claims", PList []);
                 ("summary", PStr body);
                 ("error", PStr parse_failure_message) ]).
Proof.
  intros Hs Hj Hc. unfold parse_reply. rewrite Hs, Hj, Hc. reflexivity.
Qed.

(** When it is JSON, the result is the value read. *)
Lemma parse_reply_value (raw_text body : string) (v : pyval) :
  strip_fence raw_text = Ret body ->
  json_loads body = Ret v ->
  parse_reply raw_text = Ret v.
Proof. intros Hs Hj. unfold parse_reply. rewrite Hs, Hj. reflexivity. Qed.

Lemma split1_without_separator (sep s : string) :
  contains sep s = false -> split1 sep s = [s].
Proof.
  unfold contains, split1. destruct (find sep s); [discriminate | reflexivity].
Qed.

(** A reply that opens with a fence and has no line break: the removal of
    the first line raises [IndexError], and so does the whole call. *)
Lemma one_line_fence_raises (w : World) (text url reply : string)
      (rest : list content_block) (log : list event) :
  messages_create w (List.length log) (user_message text url)
  = Ret (TextBlock reply :: rest) ->
  startswith fence (strip reply) = true ->
  contains nl (strip reply) = false ->
  extract_and_classify w text url log
  = (EMessagesCreate (user_message text url) :: log,
     Raise (mk_exn IndexError "list index out of range")).
Proof.
  intros Hm Hf Hn. unfold extract_and_classify, bind, call, lift.
  rewrite Hm. simpl. unfold parse_reply, strip_fence.
  rewrite Hf, (split1_without_separator _ _ Hn). reflexivity.
Qed.

(** A reply whose text, fences removed, is not JSON: the call returns the
    fallback dictionary. *)
Lemma extract_and_classify_fallback (w : World) (text url reply body : string)
      (rest : list content_block) (log : list event) (e : exn) :
  messages_create w (List.length log) (user_message text url)
  = Ret (TextBlock reply :: rest) ->
  strip_fence (strip reply) = Ret body ->
  json_loads body = Raise e ->
  issubclass (exn_cls e) JSONDecodeError = true ->
  extract_and_classify w text url log
  = (EMessagesCreate (user_message text url) :: log,
     Ret (PDict [ ("claims", PList []);
                  ("summary", PStr body);
                  ("error", PStr parse_failure_message) ])).
Proof.
  intros Hm Hs Hj Hc. unfold extract_and_classify, bind, call, lift.
  rewrite Hm. simpl. rewrite (parse_reply_fallback _ _ _ Hs Hj Hc).
  reflexivity.
Qed.

(** C3 (the code departs from the claim).  When the reply opens with a
    fence and has no line break, [extract_and_classify] hands no result to
    its caller: [IndexError] leaves the [try] statement, whose handler names
    [json.JSONDecodeError] only. *)
Theorem extract_and_classify_raises_on_one_line_fence :
  forall (text url : string) (log : list event),
    snd (extract_and_classify (answering one_line_fenced_reply) text url log)
    = Raise (mk_exn IndexError "list index out of range").
Proof. intros text url log. reflexivity. Qed.

(** C7 (the code departs from the claim).  The one-line reply opens with a
    fence, and neither its first line nor its last fence is dropped: the
    removal of the first line raises [IndexError], with which the whole
    parse ends. *)
Theorem one_line_fence_is_not_stripped :
  startswith fence (strip one_line_fenced_reply) = true
  /\ strip_fence (strip one_line_fenced_reply)
     = Raise (mk_exn IndexError "list index out of range")
  /\ parse_reply (strip one_line_fenced_reply)
     = Raise (mk_exn IndexError "list index out of range").
Proof. repeat split. Qed.

End Claims.

(** The two replies of the specification's examples, run with the reader
    written out above. *)
Example fenced_reply_parses :
  forall (text url : string) (log : list event),
    snd (extract_and_classify (lib := reference_lib) (answering fenced_reply)
                              text url log)
    = Ret (PDict [("claims", PList []); ("summary", PStr "ok")]).
Proof. intros text url log. reflexivity. Qed.

Example unparsable_reply_falls_back :
  forall (text url : string) (log : list event),
    snd (extract_and_classify (lib := reference_lib) (answering "not json at all")
                              text url log)
    = Ret (PDict [ ("claims", PList []);
                   ("summary", PStr "not json at all");
                   ("error", PStr parse_failure_message) ]).
Proof. intros text url log. reflexivity. Qed.

(** A fenced reply that is not JSON: the summary is the text between the
    fences, not the reply as it came. *)
Example fenced_unparsable_reply_summary :
  parse_reply (lib := reference_lib) (fence ++ "json" ++ nl ++ "oops" ++ nl ++ fence)
  = Ret (PDict [ ("claims", PList []);
                 ("summary", PStr "oops");
                 ("error", PStr parse_failure_message) ]).
Proof. reflexivity. Qed.

(* ------------------------------------------------------------------ *)
(** * The request handler *)
(* ------------------------------------------------------------------ *)

Section Handler.

Context {lib : PyLib}.

(** C9.  [analyze_post] refuses without any external call a request with
    neither URL nor text, and a request whose text is only white space;
    when the text scraped from the URL, media notes included, is empty or
    only white space it refuses right after the scrape, without calling
    the language model.  Each refusal carries an error, no claim and an
    empty summary.  When a URL is given the text of the request is not
    looked at. *)
Theorem analyze_post_refusals :
  forall (w : World) (post : PostInput) (log : list event),
    (post_url post = "" -> post_text post = "" ->
     analyze_post w post log
     = (log, Ret (PDict [ ("error", PStr no_input_message);
                          ("claims", PList []);
                          ("summary", PStr "") ])))
    /\ (post_url post = "" -> post_text post <> "" ->
        strip (post_text post) = "" ->
        analyze_post w post log
        = (log, Ret (PDict [ ("error", PStr no_content_message);
                             ("claims", PList []);
                             ("summary", PStr "") ])))
    /\ (post_url post <> "" ->
        forall (log' : list event) (scraped : ScrapeResult),
          scrape w (post_url post) log = (log', Ret scraped) ->
          error scraped = None \/ error scraped = Some "" ->
          strip (text scraped ++ media_notes scraped) = "" ->
          analyze_post w post log
          = (log', Ret (PDict [ ("error", PStr no_content_message);
                                ("claims", PList []);
                                ("summary", PStr "") ])))
    /\ (post_url post <> "" ->
        forall other : string,
          analyze_post w {| post_text := other; post_url := post_url post |} log
          = analyze_post w post log).
Proof.
  intros w post log. repeat split.
  - intros Hu Ht. unfold analyze_post. rewrite Hu, Ht. reflexivity.
  - intros Hu Ht Hs. unfold analyze_post, analyze_text. rewrite Hu. simpl.
    destruct (String.eqb_spec (post_text post) ""); [contradiction|]. simpl.
    rewrite Hs. reflexivity.
  - intros Hu log' scraped Hrun He Hs. unfold analyze_post, analyze_text.
    destruct (String.eqb_spec (post_url post) ""); [contradiction|]. simpl.
    unfold bind at 1. rewrite Hrun.
    destruct He as [-> | ->]; simpl; rewrite Hs; reflexivity.
  - intros Hu other. unfold analyze_post, analyze_text. simpl.
    destruct (String.eqb_spec (post_url post) ""); [contradiction|].
    reflexivity.
Qed.

End Handler.

(** The four cases on concrete requests. *)
Lemma analyze_post_refusals_witness :
  analyze_post (lib := reference_lib) on_server
               {| post_text := ""; post_url := "" |} []
  = ([], Ret (PDict [ ("error", PStr no_input_message);
                      ("claims", PList []);
                      ("summary", PStr "") ]))
  /\ analyze_post (lib := reference_lib) on_server
                  {| post_text := "   "; post_url := "" |} []
     = ([], Ret (PDict [ ("error", PStr no_content_message);
                         ("claims", PList []);
                         ("summary", PStr "") ]))
  /\ (exists log',
         fst (scrape (lib := reference_lib) empty_page
                     "https://x.com/someone/status/1" []) = log'
         /\ existsb (fun ev => match ev with
                               | EMessagesCreate _ => true
                               | _ => false
                               end) log' = false
         /\ analyze_post (lib := reference_lib) empty_page
                         {| post_text := "pasted text";
                            post_url := "https://x.com/someone/status/1" |} []
            = (log', Ret (PDict [ ("error", PStr no_content_message);
                                  ("claims", PList []);
                                  ("summary", PStr "") ])))
  /\ analyze_post (lib := reference_lib) on_server
                  {| post_text := "pasted text";
                     post_url := "https://example.com/post/1" |} []
     = analyze_post (lib := reference_lib) on_server
                    {| post_text := ""; post_url := "https://example.com/post/1" |} [].
Proof.
  split; [|split; [|split]].
  - apply (proj1 (analyze_post_refusals (lib := reference_lib) on_server
                    {| post_text := ""; post_url := "" |} []));
      reflexivity.
  - apply (proj1 (proj2 (analyze_post_refusals (lib := reference_lib) on_server
                           {| post_text := "   "; post_url := "" |} [])));
      [reflexivity | discriminate | reflexivity].
  - eexists. split; [reflexivity|]. split; [reflexivity|].
    eapply (proj1 (proj2 (proj2
              (analyze_post_refusals (lib := reference_lib) empty_page
                 {| post_text := "pasted text";
                    post_url := "https://x.com/someone/status/1" |} []))));
      [discriminate | reflexivity | left; reflexivity | reflexivity].
  - apply (proj2 (proj2 (proj2
              (analyze_post_refusals (lib := reference_lib) on_server
                 {| post_text := "";
                    post_url := "https://example.com/post/1" |} []))));
      discriminate.
Defined.

(* ------------------------------------------------------------------ *)
(** * Further properties: platform detection and dispatch *)
(* ------------------------------------------------------------------ *)

Lemma lower_char_idempotent (c : ascii) :
  lower_char (lower_char c) = lower_char c.
Proof.
  destruct c as [[] [] [] [] [] [] [] []]; reflexivity.
Qed.

Lemma lower_idempotent (s : string) : lower (lower s) = lower s.
Proof.
  induction s as [|c r IH]; simpl; [reflexivity|].
  rewrite lower_char_idempotent, IH. reflexivity.
Qed.

Section Detection.

Context {lib : PyLib}.

(** Detection does not depend on the case of the letters of the URL: a URL
    and its lower-case form are detected alike, a raised [ValueError]
    included. *)
Theorem detect_platform_ignores_case :
  forall url : string, detect_platform (lower url) = detect_platform url.
Proof.
  intros url. unfold detect_platform, normalized_host.
  rewrite lower_idempotent. reflexivity.
Qed.

(** [detect_platform] either returns one of its six identifiers or raises
    [ValueError]; in the second case [scrape] raises the same exception
    before any external call, for nothing in it handles the exception. *)
Theorem detect_platform_outcomes :
  forall url : string,
    (exists p, detect_platform url = Ret p
               /\ In p ["twitter"; "reddit"; "youtube"; "instagram";
                        "facebook"; "unknown"])
    \/ (exists m, detect_platform url = Raise (mk_exn ValueError m)
                  /\ forall (w : World) (log : list event),
                      scrape w url log = (log, Raise (mk_exn ValueError m))).
Proof.
  intros url. destruct (detect_platform_range url) as [H|(m & Hr)].
  - left. exact H.
  - right. exists m. split; [exact Hr|].
    intros w log. unfold scrape, bind, lift. rewrite Hr. reflexivity.
Qed.

(** The table [scrapers] has an entry of the right arity for every
    platform that detection can name: for a detected platform other than
    [unknown], [scrape] is the Reddit retriever, the YouTube retriever, or
    the browser-backed retriever called with that platform; the [KeyError]
    or [TypeError] of a bad table entry cannot arise. *)
Theorem scrape_runs_the_retriever :
  forall (w : World) (url p : string) (log : list event),
    detect_platform url = Ret p ->
    p <> "unknown" ->
    (p = "reddit" /\ scrape w url log = scrape_reddit w url log)
    \/ (p = "youtube" /\ scrape w url log = scrape_youtube w url log)
    \/ (In p ["twitter"; "instagram"; "facebook"]
        /\ scrape w url log = scrape_playwright w url p log).
Proof.
  intros w url p log Hd Hp.
  assert (Hs : scrape w url log = dispatch w url p log).
  { unfold scrape, bind, lift. rewrite Hd. reflexivity. }
  destruct (detect_platform_range url) as [(p' & Hd' & Hin)|(m & Hr)];
    [|rewrite Hr in Hd; discriminate].
  rewrite Hd in Hd'. inversion Hd'; subst p'.
  simpl in Hin.
  destruct Hin as [<-|[<-|[<-|[<-|[<-|[<-|[]]]]]]].
  - right; right. split; [simpl; auto|]. rewrite Hs. reflexivity.
  - left. split; [reflexivity|]. rewrite Hs. reflexivity.
  - right; left. split; [reflexivity|]. rewrite Hs. reflexivity.
  - right; right. split; [simpl; auto|]. rewrite Hs. reflexivity.
  - right; right. split; [simpl; auto|]. rewrite Hs. reflexivity.
  - contradiction.
Qed.

End Detection.

(** Detection of an upper-case URL, and the retriever it runs. *)
Lemma scrape_runs_the_retriever_witness :
  detect_platform (lib := reference_lib) "HTTPS://YOUTU.BE/abc123" = Ret "youtube"
  /\ scrape (lib := reference_lib) without_transcript "HTTPS://YOUTU.BE/abc123" []
     = scrape_youtube without_transcript "HTTPS://YOUTU.BE/abc123" [].
Proof.
  split; [reflexivity|].
  destruct (scrape_runs_the_retriever (lib := reference_lib) without_transcript
              "HTTPS://YOUTU.BE/abc123" "youtube" [] eq_refl)
    as [[E _]|[[_ H]|[[E|[E|[E|[]]]] _]]];
    [discriminate | discriminate E | exact H
     | discriminate E | discriminate E | discriminate E].
Defined.

(* ------------------------------------------------------------------ *)
(** * Further properties: the Reddit retriever *)
(* ------------------------------------------------------------------ *)





Lemma rstrip_with_cons (p : ascii -> bool) (x : ascii) (r : string) :
  rstrip_with p (String x r)
  = match rstrip_with p r with
    | EmptyString => if p x then EmptyString else String x EmptyString
    | String y t => String x (String y t)
    end.
Proof. reflexivity. Qed.



(** [scrape_reddit] makes one external call on every path, a GET of the
    cleaned address: there is no second request and no retry, whether it
    returns a post, returns an error or raises. *)
Theorem scrape_reddit_one_request :
  forall (w : World) (url : string) (log : list event),
    fst (scrape_reddit w url log) = EHttpGet (reddit_clean_url url) :: log.
Proof.
  intros w url log.
  unfold scrape_reddit, bind, try_except, call, lift, ret.
  destruct (requests_get w (List.length log) (reddit_clean_url url)) as [resp|e].
  - destruct (raise_for_status resp) as [[]|e].
    + destruct (json_body resp) as [data|e]; simpl.
      * destruct (reddit_post data) as [post|e]; simpl.
        -- reflexivity.
        -- destruct (_ || _); reflexivity.
      * destruct (_ || _); reflexivity.
    + destruct (issubclass (exn_cls e) RequestException); reflexivity.
  - destruct (issubclass (exn_cls e) RequestException); reflexivity.
Qed.


Lemma raise_for_status_class (resp : Response) (e : exn) :
  raise_for_status resp = Raise e -> exn_cls e = RequestException.
Proof.
  unfold raise_for_status.
  destruct (between 400 499 _); [intros H; inversion H; reflexivity|].
  destruct (between 500 599 _); [intros H; inversion H; reflexivity|].
  discriminate.
Qed.


(** When the body has the shape of a listing, [scrape_reddit] ends as
    [reddit_result] does on the post the listing holds. *)
Theorem scrape_reddit_on_listing :
  forall (w : World) (url : string) (log : list event) (resp : Response)
         (data post : pyval),
    requests_get w (List.length log) (reddit_clean_url url) = Ret resp ->
    raise_for_status resp = Ret tt ->
    json_body resp = Ret data ->
    reddit_post data = Ret post ->
    scrape_reddit w url log
    = (EHttpGet (reddit_clean_url url) :: log, reddit_result post).
Proof.
  intros w url log resp data post Hg Hs Hj Hp.
  unfold scrape_reddit, bind, try_except, call, lift, ret.
  rewrite Hg, Hs, Hj. simpl. rewrite Hp. reflexivity.
Qed.

(** A post object with a string for its URL, no video flag and no preview
    always gives a result: the text is the title and the body around an
    empty line, stripped; the only image is the URL itself when it ends
    like an image; there is no video and no error. *)
Theorem reddit_result_of_plain_post :
  forall (kvs : list (string * pyval)) (u : string),
    field kvs "url" (PStr "") = PStr u ->
    Py.truthy (field kvs "is_video" PNone) = false ->
    Py.lookup "preview" kvs = None ->
    reddit_result (PDict kvs)
    = Ret {| platform := "reddit";
             text := strip (Py.str (field kvs "title" (PStr "")) ++ nl ++ nl
                              ++ Py.str (field kvs "selftext" (PStr "")));
             author := field kvs "author" (PStr "");
             image_urls := if image_ext_search u then [PStr u] else [];
             video_urls := [];
             timestamp := PStr (Py.str (field kvs "created_utc" (PStr "")));
             error := None |}.
Proof.
  intros kvs u Hu Hv Hp.
  unfold reddit_result, reddit_direct_image, reddit_video, reddit_previews,
    Py.get. fold (field kvs "url" (PStr "")). fold (field kvs "is_video" PNone).
  rewrite Hp. simpl. rewrite Hu. simpl. rewrite Hv. simpl.
  destruct (image_ext_search u); reflexivity.
Qed.

Lemma add_preview_bounds (l l' : list string) (img : pyval) :
  add_preview l img = Ret l' ->
  List.length l' <= S (List.length l) /\ (~ In "" l -> ~ In "" l').
Proof.
  unfold add_preview. intros H.
  apply obind_ret in H; destruct H as (source & _ & H); cbv beta in H.
  apply obind_ret in H; destruct H as (u & _ & H); cbv beta in H.
  apply obind_ret in H; destruct H as (src & _ & H); cbv beta in H.
  destruct (String.eqb_spec src ""); simpl in H; inversion H; subst.
  - split; [auto|auto].
  - destruct (in_tuple src l); simpl; split; auto.
    + rewrite length_app. simpl. rewrite Nat.add_comm. auto.
    + intros Hl Hin. apply in_app_or in Hin.
      destruct Hin as [Hin|[Hin|[]]]; [exact (Hl Hin)|congruence].
Qed.

Lemma add_previews_bounds (imgs : list pyval) :
  forall l l', add_previews l imgs = Ret l' ->
               List.length l' <= List.length l + List.length imgs
               /\ (~ In "" l -> ~ In "" l').
Proof.
  induction imgs as [|img rest IH]; simpl; intros l l' H.
  - inversion H; subst. split; [rewrite Nat.add_0_r; auto | auto].
  - apply obind_ret in H. destruct H as (l1 & H1 & H2).
    destruct (add_preview_bounds _ _ _ H1) as [B1 E1].
    destruct (IH _ _ H2) as [B2 E2]. split; [|auto].
    eapply Nat.le_trans; [exact B2|].
    rewrite <- Nat.add_succ_comm. apply Nat.add_le_mono_r. exact B1.
Qed.

Lemma chars_length (s : string) :
  List.length (Py.chars s) = String.length s.
Proof. induction s; simpl; congruence. Qed.

Lemma take_length (n : nat) (s : string) : String.length (take n s) <= n.
Proof.
  revert s. induction n as [|n IH]; intros [|c r]; simpl; auto using Nat.le_0_l.
  apply le_n_S, IH.
Qed.

Lemma reddit_previews_length (post : pyval) (previews : list pyval) :
  reddit_previews post = Ret previews -> List.length previews <= 2.
Proof.
  unfold reddit_previews. intros H.
  apply obind_ret in H; destruct H as (preview & _ & H); cbv beta in H.
  apply obind_ret in H; destruct H as (images & _ & H); cbv beta in H.
  apply obind_ret in H; destruct H as (first_two & Hs & H); cbv beta in H.
  destruct images; cbv [Py.slice_to] in Hs; try discriminate;
    injection Hs as <-; cbv [Py.iter] in H; injection H as <-.
  - rewrite chars_length. exact (take_length 2 s).
  - exact (firstn_le_length 2 l).
Qed.

Lemma image_ext_search_nonempty (u : string) :
  image_ext_search u = true -> u <> "".
Proof. intros H ->. discriminate H. Qed.

(** A Reddit result lists at most three images (the direct link and two
    previews) and at most one video, and none of its image URLs is the
    empty string. *)
Theorem reddit_result_bounds :
  forall (post : pyval) (r : ScrapeResult),
    reddit_result post = Ret r ->
    List.length (image_urls r) <= 3
    /\ List.length (video_urls r) <= 1
    /\ ~ In (PStr "") (image_urls r).
Proof.
  unfold reddit_result. intros post r H.
  apply obind_ret in H; destruct H as (title & _ & H); cbv beta zeta in H.
  apply obind_ret in H; destruct H as (body & _ & H); cbv beta zeta in H.
  apply obind_ret in H; destruct H as (direct & Hd & H); cbv beta zeta in H.
  apply obind_ret in H; destruct H as (videos & Hv & H); cbv beta zeta in H.
  apply obind_ret in H; destruct H as (previews & Hp & H); cbv beta zeta in H.
  apply obind_ret in H; destruct H as (images & Hi & H); cbv beta zeta in H.
  obind_inv H. inversion H; subst r; simpl.
  assert (Bd : List.length direct <= 1 /\ ~ In "" direct).
  { unfold reddit_direct_image in Hd.
    apply obind_ret in Hd; destruct Hd as (post_url & _ & Hd); cbv beta in Hd.
    apply obind_ret in Hd; destruct Hd as (is_image & Hre & Hd); cbv beta in Hd.
    destruct post_url; simpl in Hre; try discriminate.
    inversion Hre; subst is_image. inversion Hd; subst direct.
    destruct (image_ext_search s) eqn:E; simpl; split; auto.
    intros [Heq|[]]. subst s. discriminate E. }
  destruct Bd as [Bd Ed].
  destruct (add_previews_bounds _ _ _ Hi) as [Bi Ei].
  pose proof (reddit_previews_length _ _ Hp) as Bp.
  split; [|split].
  - rewrite length_map. eapply Nat.le_trans; [exact Bi|].
    change 3 with (1 + 2). apply Nat.add_le_mono; assumption.
  - unfold reddit_video in Hv.
    apply obind_ret in Hv; destruct Hv as (is_video & _ & Hv); cbv beta in Hv.
    destruct (Py.truthy is_video); [|inversion Hv; simpl; auto].
    obind_inv Hv. inversion Hv. destruct (Py.truthy _); simpl; auto.
  - intros Hin. apply in_map_iff in Hin. destruct Hin as (empty & Hx & Hin).
    inversion Hx; subst empty. exact (Ei Ed Hin).
Qed.



(** A listing that holds [image_post]. *)
Lemma scrape_reddit_on_listing_witness :
  scrape_reddit serving_image_post "https://www.reddit.com/r/pics/comments/1/" []
  = ([EHttpGet "https://www.reddit.com/r/pics/comments/1.json"],
     reddit_result image_post).
Proof.
  eapply (scrape_reddit_on_listing serving_image_post
            "https://www.reddit.com/r/pics/comments/1/" []);
    reflexivity.
Defined.

(** A post of text only. *)
Lemma reddit_result_of_plain_post_witness :
  reddit_result text_post
  = Ret {| platform := "reddit";
           text := "A question " ++ nl ++ nl ++ "Is it true?";
           author := PStr "someone";
           image_urls := [];
           video_urls := [];
           timestamp := PStr "1700000000";
           error := None |}.
Proof.
  exact (reddit_result_of_plain_post
           [ ("title", PStr " A question ");
             ("selftext", PStr "Is it true?");
             ("url", PStr "https://www.reddit.com/r/pics/comments/1/");
             ("author", PStr "someone");
             ("created_utc", PInt 1700000000) ]
           "https://www.reddit.com/r/pics/comments/1/"
           eq_refl eq_refl eq_refl).
Defined.

(** The bounds on [image_post]: two images, no video. *)
Lemma reddit_result_bounds_witness :
  exists r,
    reddit_result image_post = Ret r
    /\ List.length (image_urls r) = 2
    /\ List.length (image_urls r) <= 3
    /\ List.length (video_urls r) <= 1
    /\ ~ In (PStr "") (image_urls r).
Proof.
  eexists.
  assert (E : reddit_result image_post = Ret _) by reflexivity.
  split; [exact E|]. split; [reflexivity|].
  exact (reddit_result_bounds _ _ E).
Defined.

(* ------------------------------------------------------------------ *)
(** * Further properties: the YouTube retriever *)
(* ------------------------------------------------------------------ *)



(** A failure while the transcript is fetched is not: when the metadata is
    a dictionary whose description is a text or missing, and the import of
    the transcript package or the request of the transcript raises an
    [Exception], the retriever still returns a result without error, whose
    text is the title and the description followed by the note that no
    transcript is available. *)
Theorem scrape_youtube_without_transcript :
  forall (w : World) (url : string) (log : list event)
         (kvs : list (string * pyval)) (description : pyval) (e : exn),
    import_module w (List.length log) "yt_dlp" = Ret tt ->
    extract_info w (S (List.length log)) url = Ret (PDict kvs) ->
    Py.slice_to 2000 (or_empty (field kvs "description" PNone)) = Ret description ->
    (import_module w (S (S (List.length log))) "youtube_transcript_api" = Raise e
     \/ (import_module w (S (S (List.length log))) "youtube_transcript_api" = Ret tt
         /\ get_transcript w (S (S (S (List.length log)))) (field kvs "id" (PStr ""))
            = Raise e)) ->
    is_Exception (exn_cls e) = true ->
    snd (scrape_youtube w url log)
    = Ret {| platform := "youtube";
             text := strip (("Title: " ++ Py.str (field kvs "title" (PStr ""))
                               ++ nl ++ nl ++ "Description:" ++ nl
                               ++ Py.str description)
                              ++ nl ++ nl ++ no_transcript_note);
             author := field kvs "uploader" (PStr "");
             image_urls := if Py.truthy (field kvs "thumbnail" (PStr ""))
                           then [field kvs "thumbnail" (PStr "")] else [];
             video_urls := [PStr url];
             timestamp := field kvs "upload_date" (PStr "");
             error := None |}.
Proof.
  intros w url log kvs description e Hi He Hd Ht Hc.
  unfold scrape_youtube, bind, try_except, call, ret, lift.
  rewrite Hi. simpl. rewrite He. simpl.
  unfold field in *. rewrite Hd.
  destruct Ht as [Ht|[Ht1 Ht2]].
  - rewrite Ht. rewrite Hc. reflexivity.
  - rewrite Ht1, Ht2. rewrite Hc. reflexivity.
Qed.

Lemma string_length_app (a b : string) :
  String.length (a ++ b) = String.length a + String.length b.
Proof.
  induction a as [|c a IH]; simpl; [reflexivity | rewrite IH; reflexivity].
Qed.

Lemma lstrip_with_length (p : ascii -> bool) (s : string) :
  String.length (lstrip_with p s) <= String.length s.
Proof.
  induction s as [|c s IH]; simpl; [apply Nat.le_refl|].
  destruct (p c); [apply Nat.le_le_succ_r; exact IH | apply Nat.le_refl].
Qed.

Lemma rstrip_with_length (p : ascii -> bool) (s : string) :
  String.length (rstrip_with p s) <= String.length s.
Proof.
  induction s as [|c s IH]; simpl; [apply Nat.le_refl|].
  destruct (rstrip_with p s) as [|c' r'].
  - destruct (p c); simpl; lia.
  - simpl in *. lia.
Qed.

Lemma strip_length (s : string) : String.length (strip s) <= String.length s.
Proof.
  unfold strip.
  eapply Nat.le_trans; [apply rstrip_with_length | apply lstrip_with_length].
Qed.

(** The transcript is cut to 4000 characters. *)
Lemma transcript_of_length (segments : pyval) (t : string) :
  transcript_of segments = Ret t -> String.length t <= 4000.
Proof.
  unfold transcript_of. intros H.
  apply obind_ret in H; destruct H as (l & _ & H); cbv beta in H.
  apply obind_ret in H; destruct H as (texts & _ & H); cbv beta in H.
  apply obind_ret in H; destruct H as (joined & _ & H); cbv beta in H.
  injection H as <-. exact (take_length 4000 joined).
Qed.

(** The description is cut to 2000 characters; what is kept of a value that
    is not a list is a text. *)
Lemma description_length (v d : pyval) :
  (forall l, v <> PList l) ->
  Py.slice_to 2000 (or_empty v) = Ret d ->
  exists s, d = PStr s /\ String.length s <= 2000.
Proof.
  intros Hv H. unfold or_empty in H.
  destruct (Py.truthy v).
  - destruct v as [| | | |s|l|kvs]; cbv [Py.slice_to] in H; try discriminate.
    + injection H as <-. exists (take 2000 s).
      split; [reflexivity | apply take_length].
    + destruct (Hv l eq_refl).
  - cbv [Py.slice_to] in H. injection H as <-. exists (take 2000 "").
    split; [reflexivity | apply take_length].
Qed.

Lemma bind_ret_inv {A B} (m : M A) (f : A -> M B) (log log' : list event)
      (b : B) :
  bind m f log = (log', Ret b) ->
  exists l1 a, m log = (l1, Ret a) /\ f a l1 = (log', Ret b).
Proof.
  unfold bind. destruct (m log) as [l1 [a|e]]; intros H; [eauto | discriminate].
Qed.

(** The text of a result of the YouTube retriever is bounded by its title:
    when the metadata tool answers a dictionary whose description is not a
    list, the text of every result the retriever returns has at most the
    length of the title and 22 + 2000 + 20 + 4000 characters more, for the
    headings (22 and 20 characters), the description, cut to 2000, and the
    transcript, cut to 4000. *)
Theorem scrape_youtube_text_bound :
  forall (w : World) (url : string) (log log' : list event)
         (kvs : list (string * pyval)) (r : ScrapeResult),
    extract_info w (S (List.length log)) url = Ret (PDict kvs) ->
    (forall l, field kvs "description" PNone <> PList l) ->
    scrape_youtube w url log = (log', Ret r) ->
    String.length (text r)
    <= String.length (Py.str (field kvs "title" (PStr "")))
       + 22 + 2000 + 20 + 4000.
Proof.
  intros w url log log' kvs r He Hd H.
  unfold scrape_youtube in H.
  apply bind_ret_inv in H. destruct H as (l1 & imported & H1 & H).
  assert (L1 : l1 = EImport "yt_dlp" :: log).
  { unfold try_except, bind, call, ret in H1.
    destruct (import_module w (List.length log) "yt_dlp") as [[]|e].
    - inversion H1; reflexivity.
    - destruct (issubclass (exn_cls e) ImportError); inversion H1; reflexivity. }
  subst l1.
  destruct (negb imported).
  { inversion H; subst r. apply Nat.le_0_l. }
  apply bind_ret_inv in H. destruct H as (l2 & fetched & H2 & H).
  unfold try_except, bind, call, ret in H2. simpl List.length in H2.
  rewrite He in H2. inversion H2; subst l2 fetched. clear H2 H1.
  revert H.
  match goal with
  | |- ?m ?l = _ -> _ =>
      enough (E : ensures m (fun r => String.length (text r)
                 <= String.length (Py.str (field kvs "title" (PStr "")))
                    + 22 + 2000 + 20 + 4000))
        by (intros H; exact (E _ _ _ H))
  end.
  clear He r log'.
  apply ensures_bind with (Q := fun t => t = field kvs "title" (PStr "")).
  { apply ensures_lift. intros a Ha. injection Ha as <-. reflexivity. }
  intros title ->.
  apply ensures_bind with (Q := fun d => d = field kvs "description" PNone).
  { apply ensures_lift. intros a Ha. injection Ha as <-. reflexivity. }
  intros description0 ->.
  apply ensures_bind
    with (Q := fun d => exists s, d = PStr s /\ String.length s <= 2000).
  { apply ensures_lift. intros d. apply description_length. exact Hd. }
  intros description (d & -> & Bd).
  do 3 (apply ensures_then; intro).
  set (T := Py.str (field kvs "title" (PStr ""))).
  apply ensures_bind
    with (Q := fun t => String.length t
                        <= String.length T + 22 + 2000 + 20 + 4000).
  { apply ensures_try.
    - apply ensures_then; intros _.
      apply ensures_then; intros segments.
      apply ensures_bind with (Q := fun t => String.length t <= 4000).
      + apply ensures_lift. intros t. apply transcript_of_length.
      + intros t Bt. apply ensures_ret.
        rewrite !string_length_app. cbn [String.length nl Py.str]. lia.
    - intros e. apply ensures_ret.
      rewrite !string_length_app. cbn [String.length nl Py.str]. lia. }
  intros t Bt. apply ensures_then; intros upload_date. apply ensures_ret.
  cbn [text]. eapply Nat.le_trans; [apply strip_length | exact Bt].
Qed.

(** Every result of the YouTube retriever is tagged [youtube]; one without
    an error lists the URL it was asked for as its only video, and at most
    one image. *)
Theorem scrape_youtube_result_shape :
  forall (w : World) (url : string) (log log' : list event) (r : ScrapeResult),
    scrape_youtube w url log = (log', Ret r) ->
    platform r = "youtube"
    /\ (error r = None ->
        video_urls r = [PStr url] /\ List.length (image_urls r) <= 1).
Proof.
  intros w url log log' r H. revert log log' r H.
  change (ensures (scrape_youtube w url)
                  (fun r => platform r = "youtube"
                            /\ (error r = None ->
                                video_urls r = [PStr url]
                                /\ List.length (image_urls r) <= 1))).
  unfold scrape_youtube.
  apply ensures_then; intros imported.
  destruct (negb imported); [ens; split; [reflexivity|discriminate]|].
  apply ensures_bind
    with (Q := on_return (fun r => platform r = "youtube" /\ error r <> None)
                         (fun _ => True)).
  - ens; first [ exact I | split; [reflexivity|discriminate] ].
  - intros [failed|info] H; simpl in H.
    + ens. destruct H as [Hp He]. split; [exact Hp|]. intros E. contradiction.
    + ens. simpl. split; [reflexivity|]. intros _. split; [reflexivity|].
      destruct (Py.truthy _); simpl; auto.
Qed.



(** A video whose transcript cannot be fetched. *)
Lemma scrape_youtube_without_transcript_witness :
  snd (scrape_youtube without_transcript "https://youtu.be/abc123" [])
  = Ret {| platform := "youtube";
           text := "Title: A talk" ++ nl ++ nl ++ "Description:" ++ nl
                     ++ nl ++ nl ++ no_transcript_note;
           author := PStr "someone";
           image_urls := [PStr "https://i.ytimg.com/vi/abc123/default.jpg"];
           video_urls := [PStr "https://youtu.be/abc123"];
           timestamp := PStr "20240101";
           error := None |}.
Proof.
  exact (scrape_youtube_without_transcript without_transcript
           "https://youtu.be/abc123" []
           [ ("title", PStr "A talk");
             ("description", PNone);
             ("uploader", PStr "someone");
             ("id", PStr "abc123");
             ("thumbnail", PStr "https://i.ytimg.com/vi/abc123/default.jpg");
             ("upload_date", PStr "20240101") ]
           (PStr "") (mk_exn OtherException "network is unreachable")
           eq_refl eq_refl eq_refl
           (or_intror (conj eq_refl eq_refl)) eq_refl).
Defined.

(** A video whose description and transcript are both cut: the text has
    exactly the length of the bound. *)
Lemma scrape_youtube_text_bound_witness :
  exists (log' : list event) (r : ScrapeResult),
    scrape_youtube long_video "https://youtu.be/abc123" [] = (log', Ret r)
    /\ error r = None
    /\ String.length (text r) = 6 + 22 + 2000 + 20 + 4000
    /\ String.length (text r) <= String.length "A talk" + 22 + 2000 + 20 + 4000.
Proof.
  exists (fst (scrape_youtube long_video "https://youtu.be/abc123" [])).
  exists (match snd (scrape_youtube long_video "https://youtu.be/abc123" []) with
          | Ret r => r
          | Raise _ => _error_result "youtube" ""
          end).
  assert (E : scrape_youtube long_video "https://youtu.be/abc123" []
              = (fst (scrape_youtube long_video "https://youtu.be/abc123" []),
                 Ret (match snd (scrape_youtube long_video
                                                "https://youtu.be/abc123" []) with
                      | Ret r => r
                      | Raise _ => _error_result "youtube" ""
                      end)))
    by (vm_compute; reflexivity).
  split; [exact E|].
  split; [vm_compute; reflexivity|].
  split; [vm_compute; reflexivity|].
  exact (scrape_youtube_text_bound long_video "https://youtu.be/abc123" [] _
           [ ("title", PStr "A talk");
             ("description", PStr (repeated "d" 2500));
             ("uploader", PStr "someone");
             ("id", PStr "abc123");
             ("thumbnail", PStr "https://i.ytimg.com/vi/abc123/default.jpg");
             ("upload_date", PStr "20240101") ]
           _ eq_refl ltac:(discriminate) E).
Defined.

(** The shape of the result for a video without transcript. *)
Lemma scrape_youtube_result_shape_witness :
  exists r,
    scrape_youtube without_transcript "https://youtu.be/abc123" []
    = ([EGetTranscript (PStr "abc123"); EImport "youtube_transcript_api";
        EExtractInfo "https://youtu.be/abc123"; EImport "yt_dlp"], Ret r)
    /\ error r = None
    /\ platform r = "youtube"
    /\ video_urls r = [PStr "https://youtu.be/abc123"]
    /\ List.length (image_urls r) <= 1.
Proof.
  exists {| platform := "youtube";
            text := "Title: A talk" ++ nl ++ nl ++ "Description:" ++ nl
                      ++ nl ++ nl ++ no_transcript_note;
            author := PStr "someone";
            image_urls := [PStr "https://i.ytimg.com/vi/abc123/default.jpg"];
            video_urls := [PStr "https://youtu.be/abc123"];
            timestamp := PStr "20240101";
            error := None |}.
  assert (E : scrape_youtube without_transcript "https://youtu.be/abc123" []
              = ([EGetTranscript (PStr "abc123"); EImport "youtube_transcript_api";
                  EExtractInfo "https://youtu.be/abc123"; EImport "yt_dlp"],
                 Ret {| platform := "youtube";
                        text := "Title: A talk" ++ nl ++ nl ++ "Description:" ++ nl
                                  ++ nl ++ nl ++ no_transcript_note;
                        author := PStr "someone";
                        image_urls := [PStr "https://i.ytimg.com/vi/abc123/default.jpg"];
                        video_urls := [PStr "https://youtu.be/abc123"];
                        timestamp := PStr "20240101";
                        error := None |}))
    by (vm_compute; reflexivity).
  split; [exact E|]. split; [reflexivity|].
  destruct (scrape_youtube_result_shape _ _ _ _ _ E) as [Hp Hs].
  split; [exact Hp|]. exact (Hs eq_refl).
Defined.

(* ------------------------------------------------------------------ *)
(** * Further properties: the browser-backed retriever *)
(* ------------------------------------------------------------------ *)

Section Triples.

Context {A B : Type}.

Lemma triple_ret (P : list event -> Prop) (a : A)
      (Q : list event -> A -> Prop) :
  (forall log, P log -> Q log a) -> triple P (ret a) Q.
Proof. intros H log log' a' HP E. inversion E; subst. exact (H _ HP). Qed.

Lemma triple_any (P : list event -> Prop) (m : M A) :
  triple P m (fun _ _ => True).
Proof. intros log log' a _ _. exact I. Qed.

Lemma triple_bind (P : list event -> Prop) (m : M A) (f : A -> M B)
      (R : list event -> A -> Prop) (Q : list event -> B -> Prop) :
  triple P m R -> (forall a, triple (fun l => R l a) (f a) Q) ->
  triple P (bind m f) Q.
Proof.
  intros Hm Hf log log' b HP E. unfold bind in E.
  destruct (m log) as [l1 [a|e]] eqn:Em; [|discriminate].
  exact (Hf a l1 log' b (Hm _ _ _ HP Em) E).
Qed.

Lemma triple_call (P : list event -> Prop) (ev : event)
      (answer : nat -> outcome A) (Q : list event -> A -> Prop) :
  (forall log a, P log -> Q (ev :: log) a) -> triple P (call ev answer) Q.
Proof.
  intros H log log' a HP E. unfold call in E. inversion E; subst.
  exact (H _ _ HP).
Qed.

Lemma triple_try (P : list event -> Prop) (m : M A)
      (handled : exn_class -> bool) (handler : exn -> M A)
      (Q : list event -> A -> Prop) :
  triple P m Q -> (forall e, triple (fun _ => True) (handler e) Q) ->
  triple P (try_except m handled handler) Q.
Proof.
  intros Hm Hh log log' a HP E. unfold try_except in E.
  destruct (m log) as [l1 [a1|e]] eqn:Em.
  - inversion E; subst. exact (Hm _ _ _ HP Em).
  - destruct (handled (exn_cls e)); [|discriminate].
    exact (Hh e l1 log' a I E).
Qed.

End Triples.

Ltac skip_call :=
  apply triple_bind with (R := fun _ _ => True); [apply triple_any | intro].

(** Closing the browser and returning leaves the closing as the last
    call. *)
Lemma close_then_return {A} (w : World) (a : A) (P : list event -> Prop) :
  triple P (close_browser w ;; ret a) (fun l _ => closed_last l).
Proof.
  apply triple_bind with (R := fun l _ => closed_last l).
  - apply triple_call. intros log [] _. exists log. reflexivity.
  - intros []. apply triple_ret. intros log H. exact H.
Qed.

Lemma browser_session_closes (w : World) (url p : string) :
  triple (fun _ => True) (browser_session w url p)
         (fun l _ => closed_last l).
Proof.
  unfold browser_session.
  do 3 skip_call.
  apply triple_bind
    with (R := fun l failed => match failed with
                               | Some _ => closed_last l
                               | None => True
                               end).
  { apply triple_try.
    - skip_call. apply triple_ret. intros; exact I.
    - intros e. apply triple_bind with (R := fun l _ => closed_last l).
      + apply triple_call. intros log [] _. exists log. reflexivity.
      + intros []. apply triple_ret. intros log H. exact H. }
  intros [r|]; [apply triple_ret; intros log H; exact H|].
  do 2 skip_call.
  apply triple_bind
    with (R := fun l timed_out => match timed_out with
                                  | Some _ => closed_last l
                                  | None => True
                                  end).
  { destruct (_is_login_page _ _).
    - do 2 skip_call. apply triple_try.
      + do 4 skip_call. apply triple_ret. intros; exact I.
      + intros e. apply triple_bind with (R := fun l _ => closed_last l).
        * apply triple_call. intros log [] _. exists log. reflexivity.
        * intros []. apply triple_ret. intros log H. exact H.
    - apply triple_ret. intros; exact I. }
  intros [r|]; [apply triple_ret; intros log H; exact H|].
  do 4 skip_call.
  apply close_then_return.
Qed.

(** The browser is closed on every path that returns a result: when
    [scrape_playwright] returns on a desktop machine, either nothing but
    the failed import of Playwright happened, or the last two external
    calls were the closing of the browser and the stop of the driver. *)
Theorem scrape_playwright_closes_browser :
  forall (w : World) (url p : string) (log log' : list event) (r : ScrapeResult),
    IS_SERVER w = false ->
    scrape_playwright w url p log = (log', Ret r) ->
    log' = EImport "playwright.sync_api" :: log
    \/ exists rest, log' = EPlaywrightStop :: EBrowserClose :: rest.
Proof.
  intros w url p log log' r Hs H.
  unfold scrape_playwright in H. rewrite Hs in H.
  unfold bind at 1 in H. unfold try_except, bind, call, ret in H.
  revert H.
  destruct (import_module w (List.length log) "playwright.sync_api") as [[]|e].
  - simpl. unfold with_sync_playwright, bind, call. simpl.
    destruct (playwright_start w (S (List.length log))) as [[]|e];
      [|simpl; intros H; discriminate H].
    destruct (browser_session w url p
                (EPlaywrightStart :: EImport "playwright.sync_api" :: log))
      as [l1 [session|e]] eqn:Eb; [|simpl; intros H; discriminate H].
    destruct (browser_session_closes w url p _ _ _ I Eb) as (rest & ->).
    simpl. intros H. right. exists rest.
    destruct session; inversion H; reflexivity.
  - destruct (issubclass (exn_cls e) ImportError);
      [|simpl; intros H; discriminate H].
    simpl. intros H. left. inversion H. reflexivity.
Qed.

(** It is not closed when a call between the guarded ones raises: if the
    wait that follows the first navigation fails, the exception leaves
    [scrape_playwright] and the calls made are the import, the start of
    the driver, the launch, the navigation, the wait and the stop of the
    driver, with no closing of the browser among them. *)
Theorem scrape_playwright_leaks_on_failed_wait :
  forall (w : World) (url p : string) (log : list event) (e : exn),
    IS_SERVER w = false ->
    import_module w (List.length log) "playwright.sync_api" = Ret tt ->
    playwright_start w (1 + List.length log) = Ret tt ->
    launch_persistent_context w (2 + List.length log)
                              (os_path_join (SESSIONS_DIR w) p) = Ret tt ->
    has_pages w (3 + List.length log) = true ->
    page_goto w (4 + List.length log) url = Ret tt ->
    wait_for_timeout w (5 + List.length log) 3000 = Raise e ->
    scrape_playwright w url p log
    = (EPlaywrightStop :: EWaitForTimeout 3000 :: EGoto url :: EPages
         :: ELaunch (os_path_join (SESSIONS_DIR w) p) :: EPlaywrightStart
         :: EImport "playwright.sync_api" :: log,
       Raise e).
Proof.
  intros w url p log e Hs Hi Hp Hl Hh Hg Hw.
  unfold scrape_playwright, with_sync_playwright, browser_session,
    goto, wait, try_except, bind, call, ret.
  simpl in *. rewrite Hs, Hi. simpl. rewrite Hp. simpl. rewrite Hl. simpl.
  rewrite Hh. simpl. rewrite Hg. simpl. rewrite Hw. reflexivity.
Qed.


Lemma og_video_urls_range (w : World) (og_type : option elem) (url : string) :
  ensures (og_video_urls w og_type url) (fun l => l = [] \/ l = [url]).
Proof.
  unfold og_video_urls. destruct og_type; ens; [|auto].
  destruct (contains "video" _); auto.
Qed.

Lemma extract_videos_range (w : World) (url p : string) :
  ensures (if String.eqb p "twitter" then _extract_twitter w url
           else if String.eqb p "instagram" then _extract_instagram w url
           else if String.eqb p "facebook" then _extract_facebook w url
           else ret extracted_empty)
          (fun x => get_or (x_video_urls x) [] = []
                    \/ get_or (x_video_urls x) [] = [url]).
Proof.
  destruct (String.eqb p "twitter").
  { unfold _extract_twitter. ens; simpl; auto.
    match goal with |- context [match ?v with Some _ => _ | None => _ end] =>
                      destruct v end; auto. }
  destruct (String.eqb p "instagram").
  { unfold _extract_instagram. do 6 (apply ensures_then; intro).
    eapply ensures_bind; [apply og_video_urls_range|].
    intros l Hl. ens. exact Hl. }
  destruct (String.eqb p "facebook").
  { unfold _extract_facebook. do 8 (apply ensures_then; intro).
    eapply ensures_bind; [apply og_video_urls_range|].
    intros l Hl. ens. exact Hl. }
  ens. simpl. auto.
Qed.

Lemma browser_session_shape (w : World) (url p : string) :
  ensures (browser_session w url p)
          (on_return (fun r => platform r = p /\ timestamp r = PStr ""
                               /\ video_urls r = [])
                     (fun x => get_or (x_video_urls x) [] = []
                               \/ get_or (x_video_urls x) [] = [url])).
Proof.
  unfold browser_session.
  do 3 (apply ensures_then; intro).
  apply ensures_bind
    with (Q := fun failed => match failed with
                             | Some r => platform r = p /\ timestamp r = PStr ""
                                         /\ video_urls r = []
                             | None => True
                             end).
  { ens; first [ exact I | repeat split ]. }
  intros [r|] Hr; [ens; exact Hr|].
  do 2 (apply ensures_then; intro).
  apply ensures_bind
    with (Q := fun timed_out => match timed_out with
                                | Some r => platform r = p /\ timestamp r = PStr ""
                                            /\ video_urls r = []
                                | None => True
                                end).
  { destruct (_is_login_page _ _); ens; first [ exact I | repeat split ]. }
  intros [r|] Hr'; [ens; exact Hr'|].
  do 2 (apply ensures_then; intro).
  apply ensures_bind
    with (Q := fun x => get_or (x_video_urls x) [] = []
                        \/ get_or (x_video_urls x) [] = [url]).
  { apply ensures_try; [apply extract_videos_range|].
    intro e. ens. simpl. auto. }
  intros x Hx. ens. exact Hx.
Qed.

(** Every result of the browser-backed retriever is tagged with the
    platform it was called for and has an empty timestamp; the only video
    URL it can list is the URL of the post itself. *)
Theorem scrape_playwright_result_shape :
  forall (w : World) (url p : string) (log log' : list event) (r : ScrapeResult),
    scrape_playwright w url p log = (log', Ret r) ->
    platform r = p
    /\ timestamp r = PStr ""
    /\ (video_urls r = [] \/ video_urls r = [PStr url]).
Proof.
  intros w url p. 
  change (ensures (scrape_playwright w url p)
                  (fun r => platform r = p /\ timestamp r = PStr ""
                            /\ (video_urls r = [] \/ video_urls r = [PStr url]))).
  unfold scrape_playwright.
  destruct (IS_SERVER w); [ens; simpl; auto|].
  apply ensures_then; intros imported.
  destruct (negb imported); [ens; simpl; auto|].
  eapply ensures_bind;
    [apply ensures_with; apply browser_session_shape|].
  intros [r|x] H; simpl in H; ens.
  - destruct H as (Hp & Ht & Hv). rewrite Hv. auto.
  - simpl. split; [reflexivity|]. split; [reflexivity|].
    destruct H as [-> | ->]; simpl; auto.
Qed.





(** An empty page on Instagram: the browser is closed, then the driver
    stopped. *)
Lemma scrape_playwright_closes_browser_witness :
  IS_SERVER empty_page = false
  /\ exists rest r,
      scrape_playwright empty_page "https://www.instagram.com/p/1/" "instagram" []
      = (EPlaywrightStop :: EBrowserClose :: rest, Ret r).
Proof.
  split; [reflexivity|].
  destruct (scrape_playwright empty_page "https://www.instagram.com/p/1/"
                              "instagram" []) as [log' o] eqn:E.
  assert (Ho : o = Ret {| platform := "instagram"; text := ""; author := PStr "";
                          image_urls := []; video_urls := [];
                          timestamp := PStr ""; error := None |}).
  { apply (f_equal snd) in E. simpl in E. rewrite <- E. reflexivity. }
  subst o.
  destruct (scrape_playwright_closes_browser empty_page
              "https://www.instagram.com/p/1/" "instagram" [] log' _ eq_refl E)
    as [Hl|(rest & Hl)].
  - exfalso. apply (f_equal fst) in E. simpl in E. rewrite Hl in E.
    discriminate E.
  - exists rest. eexists. rewrite Hl. reflexivity.
Defined.

(** A page that is gone when the code waits on it. *)
Lemma scrape_playwright_leaks_on_failed_wait_witness :
  scrape_playwright page_gone "https://www.instagram.com/p/1/" "instagram" []
  = ([EPlaywrightStop; EWaitForTimeout 3000;
      EGoto "https://www.instagram.com/p/1/"; EPages;
      ELaunch "/app/backend/sessions/instagram"; EPlaywrightStart;
      EImport "playwright.sync_api"],
     Raise (mk_exn PlaywrightError "Target page has been closed")).
Proof.
  apply (scrape_playwright_leaks_on_failed_wait page_gone
           "https://www.instagram.com/p/1/" "instagram" []);
    reflexivity.
Defined.


(** The shape of the result for an empty page on Instagram. *)
Lemma scrape_playwright_result_shape_witness :
  exists log' r,
    scrape_playwright empty_page "https://www.instagram.com/p/1/" "instagram" []
    = (log', Ret r)
    /\ platform r = "instagram"
    /\ timestamp r = PStr ""
    /\ (video_urls r = [] \/ video_urls r = [PStr "https://www.instagram.com/p/1/"]).
Proof.
  destruct (scrape_playwright empty_page "https://www.instagram.com/p/1/"
                              "instagram" []) as [log' o] eqn:E.
  assert (Ho : o = Ret {| platform := "instagram"; text := ""; author := PStr "";
                          image_urls := []; video_urls := [];
                          timestamp := PStr ""; error := None |}).
  { apply (f_equal snd) in E. simpl in E. rewrite <- E. reflexivity. }
  subst o. eexists. eexists. split; [reflexivity|].
  exact (scrape_playwright_result_shape _ _ _ _ _ _ E).
Defined.

(* ------------------------------------------------------------------ *)
(** * Further properties: the reply and the request handler *)
(* ------------------------------------------------------------------ *)

Lemma lstrip_with_empty (p : ascii -> bool) (s : string) :
  String.eqb (lstrip_with p s) "" = all_chars p s.
Proof.
  induction s as [|c r IH]; simpl; [reflexivity|].
  destruct (p c); [exact IH | reflexivity].
Qed.

Lemma rstrip_with_empty (p : ascii -> bool) (s : string) :
  String.eqb (rstrip_with p s) "" = all_chars p s.
Proof.
  induction s as [|c r IH]; [reflexivity|]. rewrite rstrip_with_cons.
  cbn [all_chars]. rewrite <- IH.
  destruct (rstrip_with p r); simpl.
  - destruct (p c); reflexivity.
  - rewrite andb_false_r. reflexivity.
Qed.

Lemma all_chars_lstrip (p : ascii -> bool) (s : string) :
  all_chars p (lstrip_with p s) = all_chars p s.
Proof.
  induction s as [|c r IH]; simpl; [reflexivity|].
  destruct (p c) eqn:E; simpl; [exact IH|]. rewrite E. reflexivity.
Qed.

(** [s.strip()] is empty exactly when [s] is made of white space. *)
Lemma strip_empty_blank (s : string) :
  String.eqb (strip s) "" = blank s.
Proof.
  unfold strip, blank. rewrite rstrip_with_empty. apply all_chars_lstrip.
Qed.

Lemma all_chars_app (p : ascii -> bool) (a b : string) :
  all_chars p (a ++ b) = all_chars p a && all_chars p b.
Proof.
  induction a as [|c r IH]; simpl; [reflexivity|].
  rewrite IH. apply andb_assoc.
Qed.

(** A scraped text is not blank once the notes on the media are added to
    it, when there is an image or a video. *)
Lemma media_notes_not_blank (s : ScrapeResult) :
  image_urls s <> [] \/ video_urls s <> [] ->
  blank (text s ++ media_notes s) = false.
Proof.
  intros H. unfold blank, media_notes. rewrite !all_chars_app.
  destruct H as [H|H].
  - destruct (image_urls s); [contradiction|].
    rewrite andb_false_iff. right. reflexivity.
  - destruct (video_urls s); [contradiction|].
    rewrite andb_false_iff. right. rewrite andb_false_iff. right. reflexivity.
Qed.

Lemma lookup_store_same (k : string) (v : pyval) (kvs : list (string * pyval)) :
  Py.lookup k (Py.store k v kvs) = Some v.
Proof.
  induction kvs as [|[k' v'] r IH]; simpl.
  - rewrite String.eqb_refl. reflexivity.
  - destruct (String.eqb k k') eqn:E; simpl.
    + rewrite String.eqb_refl. reflexivity.
    + rewrite E. exact IH.
Qed.

Lemma lookup_store_other (k k0 : string) (v : pyval)
      (kvs : list (string * pyval)) :
  k0 <> k -> Py.lookup k0 (Py.store k v kvs) = Py.lookup k0 kvs.
Proof.
  intros Hne. induction kvs as [|[k' v'] r IH]; simpl.
  - destruct (String.eqb_spec k0 k); [contradiction|reflexivity].
  - destruct (String.eqb_spec k k') as [->|Hk]; simpl.
    + destruct (String.eqb_spec k0 k'); [contradiction|reflexivity].
    + destruct (String.eqb k0 k'); [reflexivity|exact IH].
Qed.

Section Analysis.

Context {lib : PyLib}.

Lemma extract_and_classify_log (w : World) (text url : string)
      (log : list event) :
  fst (extract_and_classify w text url log)
  = EMessagesCreate (user_message text url) :: log.
Proof.
  unfold extract_and_classify, bind, call, lift.
  destruct (messages_create w (List.length log) (user_message text url))
    as [content|e]; [|reflexivity].
  destruct (first_text content) as [raw|e]; reflexivity.
Qed.

(** [extract_and_classify] makes one external call on every path, the
    request to the language model with the message built from the text and
    the URL: there is no second request and no retry, whether it returns or
    raises. *)
Theorem extract_and_classify_one_request :
  forall (w : World) (text url : string) (log : list event),
    fst (extract_and_classify w text url log)
    = EMessagesCreate (user_message text url) :: log.
Proof. intros w text url log. apply extract_and_classify_log. Qed.

(** Once the fences are off, the reply is handed to [json.loads]: its value
    is the result, whatever JSON value it is; a [json.JSONDecodeError]
    gives the fallback dictionary with the text that was handed over as
    its summary; any other exception is raised on. *)
Theorem extract_and_classify_after_fences :
  forall (w : World) (text url reply body : string)
         (rest : list content_block) (log : list event),
    messages_create w (List.length log) (user_message text url)
    = Ret (TextBlock reply :: rest) ->
    strip_fence (strip reply) = Ret body ->
    extract_and_classify w text url log
    = (EMessagesCreate (user_message text url) :: log,
       match json_loads body with
       | Ret result => Ret result
       | Raise e =>
           if issubclass (exn_cls e) JSONDecodeError
           then Ret (PDict [ ("claims", PList []);
                             ("summary", PStr body);
                             ("error", PStr parse_failure_message) ])
           else Raise e
       end).
Proof.
  intros w text url reply body rest log Hm Hs.
  unfold extract_and_classify, bind, call, lift.
  rewrite Hm. simpl. unfold parse_reply. rewrite Hs. reflexivity.
Qed.

(** When the scrape reports an error, [analyze_post] returns it with the
    scrape result, no claim and an empty summary, and the language model is
    not called. *)
Theorem analyze_post_scrape_error :
  forall (w : World) (post : PostInput) (log log' : list event)
         (scraped : ScrapeResult) (message : string),
    post_url post <> "" ->
    scrape w (post_url post) log = (log', Ret scraped) ->
    error scraped = Some message ->
    message <> "" ->
    analyze_post w post log
    = (log', Ret (PDict [ ("error", PStr message);
                          ("scraped", scraped_dict scraped);
                          ("claims", PList []);
                          ("summary", PStr "") ])).
Proof.
  intros w post log log' scraped message Hu Hrun He Hm.
  unfold analyze_post.
  destruct (String.eqb_spec (post_url post) ""); [contradiction|]. simpl.
  unfold bind. rewrite Hrun, He.
  destruct (String.eqb_spec message ""); [contradiction|]. reflexivity.
Qed.

(** A request with a text that is not blank and no URL is the call of
    [extract_and_classify] on that text, with an empty URL: nothing is
    scraped and nothing is added to the result. *)
Theorem analyze_post_text_only :
  forall (w : World) (post : PostInput) (log : list event),
    post_url post = "" ->
    blank (post_text post) = false ->
    analyze_post w post log
    = extract_and_classify w (post_text post) "" log.
Proof.
  intros w post log Hu Hb. unfold analyze_post, analyze_text.
  rewrite Hu. simpl.
  destruct (String.eqb_spec (post_text post) "") as [E|_].
  { rewrite E in Hb. discriminate Hb. }
  simpl. rewrite strip_empty_blank, Hb. unfold bind.
  destruct (extract_and_classify w (post_text post) "" log) as [l [v|e]];
    reflexivity.
Qed.

(** After a scrape without error whose text, media notes included, is not
    blank, and a reply that is a JSON object, the result is that object
    with the scrape result under the key [scraped]: that key holds the
    scrape result and every other key holds what the reply gave it. *)
Theorem analyze_post_attaches_scrape :
  forall (w : World) (post : PostInput) (log log1 log2 : list event)
         (scraped : ScrapeResult) (kvs : list (string * pyval)),
    post_url post <> "" ->
    scrape w (post_url post) log = (log1, Ret scraped) ->
    error scraped = None \/ error scraped = Some "" ->
    blank (text scraped ++ media_notes scraped) = false ->
    extract_and_classify w (text scraped ++ media_notes scraped)
                         (post_url post) log1
    = (log2, Ret (PDict kvs)) ->
    exists kvs',
      analyze_post w post log = (log2, Ret (PDict kvs'))
      /\ Py.lookup "scraped" kvs' = Some (scraped_dict scraped)
      /\ forall k, k <> "scraped" -> Py.lookup k kvs' = Py.lookup k kvs.
Proof.
  intros w post log log1 log2 scraped kvs Hu Hrun He Hb Hx.
  exists (Py.store "scraped" (scraped_dict scraped) kvs).
  split; [|split].
  - unfold analyze_post.
    destruct (String.eqb_spec (post_url post) ""); [contradiction|]. simpl.
    unfold bind at 1. rewrite Hrun.
    destruct He as [-> | ->]; simpl; unfold analyze_text;
      rewrite strip_empty_blank, Hb; unfold bind; rewrite Hx; reflexivity.
  - apply lookup_store_same.
  - intros k Hk. apply lookup_store_other. exact Hk.
Qed.

(** When the reply is JSON and not an object, a request with a URL fails:
    the scrape result cannot be stored in the value, and [analyze_post]
    raises [TypeError]. *)
Theorem analyze_post_non_object_reply :
  forall (w : World) (post : PostInput) (log log1 log2 : list event)
         (scraped : ScrapeResult) (v : pyval),
    post_url post <> "" ->
    scrape w (post_url post) log = (log1, Ret scraped) ->
    error scraped = None \/ error scraped = Some "" ->
    blank (text scraped ++ media_notes scraped) = false ->
    extract_and_classify w (text scraped ++ media_notes scraped)
                         (post_url post) log1
    = (log2, Ret v) ->
    (forall kvs, v <> PDict kvs) ->
    fst (analyze_post w post log) = log2
    /\ raises (snd (analyze_post w post log)) TypeError.
Proof.
  intros w post log log1 log2 scraped v Hu Hrun He Hb Hx Hv.
  assert (E : analyze_post w post log
              = (log2, set_scraped v (scraped_dict scraped))).
  { unfold analyze_post.
    destruct (String.eqb_spec (post_url post) ""); [contradiction|]. simpl.
    unfold bind at 1. rewrite Hrun.
    destruct He as [-> | ->]; simpl; unfold analyze_text;
      rewrite strip_empty_blank, Hb; unfold bind; rewrite Hx; reflexivity. }
  rewrite E. split; [reflexivity|]. simpl.
  destruct v; try (eexists; reflexivity).
  exfalso. exact (Hv kvs eq_refl).
Qed.

(** A post with an image or a video is always sent to the language model,
    even when no text was found: after a scrape without error that lists
    some media, the call that follows is the request to the model. *)
Theorem analyze_post_with_media_calls_model :
  forall (w : World) (post : PostInput) (log log1 : list event)
         (scraped : ScrapeResult),
    post_url post <> "" ->
    scrape w (post_url post) log = (log1, Ret scraped) ->
    error scraped = None \/ error scraped = Some "" ->
    image_urls scraped <> [] \/ video_urls scraped <> [] ->
    fst (analyze_post w post log)
    = EMessagesCreate (user_message (text scraped ++ media_notes scraped)
                                    (post_url post)) :: log1.
Proof.
  intros w post log log1 scraped Hu Hrun He Hm.
  pose proof (media_notes_not_blank scraped Hm) as Hb.
  pose proof (extract_and_classify_log w
                (text scraped ++ media_notes scraped) (post_url post) log1) as H1.
  unfold analyze_post.
  destruct (String.eqb_spec (post_url post) ""); [contradiction|]. simpl.
  unfold bind at 1. rewrite Hrun.
  destruct He as [-> | ->]; simpl; unfold analyze_text;
    rewrite strip_empty_blank, Hb; unfold bind;
    destruct (extract_and_classify w (text scraped ++ media_notes scraped)
                                   (post_url post) log1) as [l [v|e]];
    simpl in H1; subst l; reflexivity.
Qed.

End Analysis.

(** The fenced reply of the specification's example. *)
Lemma extract_and_classify_after_fences_witness :
  extract_and_classify (lib := reference_lib) (answering fenced_reply)
                       "The moon is made of cheese." "" []
  = ([EMessagesCreate (user_message "The moon is made of cheese." "")],
     Ret (PDict [("claims", PList []); ("summary", PStr "ok")])).
Proof.
  exact (extract_and_classify_after_fences (lib := reference_lib)
           (answering fenced_reply) "The moon is made of cheese." ""
           fenced_reply ok_object [] [] eq_refl eq_refl).
Defined.

(** A post on X asked for on a server: the error of the scrape is handed
    back. *)
Lemma analyze_post_scrape_error_witness :
  analyze_post (lib := reference_lib) on_server
               {| post_text := ""; post_url := "https://x.com/someone/status/1" |} []
  = ([], Ret (PDict [ ("error", PStr (server_message "twitter"));
                      ("scraped",
                       scraped_dict (_error_result "twitter"
                                                   (server_message "twitter")));
                      ("claims", PList []);
                      ("summary", PStr "") ])).
Proof.
  apply (analyze_post_scrape_error (lib := reference_lib) on_server
           {| post_text := ""; post_url := "https://x.com/someone/status/1" |}
           [] [] (_error_result "twitter" (server_message "twitter"))
           (server_message "twitter"));
    [discriminate | reflexivity | reflexivity | discriminate].
Defined.

(** A pasted text. *)
Lemma analyze_post_text_only_witness :
  analyze_post (lib := reference_lib) (answering ok_object)
               {| post_text := "The moon is made of cheese."; post_url := "" |} []
  = extract_and_classify (lib := reference_lib) (answering ok_object)
                         "The moon is made of cheese." "" [].
Proof.
  apply (analyze_post_text_only (lib := reference_lib) (answering ok_object)
           {| post_text := "The moon is made of cheese."; post_url := "" |} []);
    reflexivity.
Defined.

(** The Reddit post with its two images, and a reply that is an object. *)
Lemma analyze_post_attaches_scrape_witness :
  exists kvs',
    analyze_post (lib := reference_lib) (serving_and_answering ok_object)
                 image_post_request []
    = ([EMessagesCreate image_post_message;
        EHttpGet "https://www.reddit.com/r/pics/comments/1.json"],
       Ret (PDict kvs'))
    /\ Py.lookup "scraped" kvs' = Some (scraped_dict image_post_scraped)
    /\ forall k, k <> "scraped" ->
                 Py.lookup k kvs'
                 = Py.lookup k [("claims", PList []); ("summary", PStr "ok")].
Proof.
  apply (analyze_post_attaches_scrape (lib := reference_lib)
           (serving_and_answering ok_object) image_post_request []
           [EHttpGet "https://www.reddit.com/r/pics/comments/1.json"]
           [EMessagesCreate image_post_message;
            EHttpGet "https://www.reddit.com/r/pics/comments/1.json"]
           image_post_scraped
           [("claims", PList []); ("summary", PStr "ok")]);
    [discriminate | reflexivity | left; reflexivity | reflexivity | reflexivity].
Defined.

(** The same post, and a reply that is a JSON array. *)
Lemma analyze_post_non_object_reply_witness :
  fst (analyze_post (lib := reference_lib) (serving_and_answering "[1, 2]")
                    image_post_request [])
  = [EMessagesCreate image_post_message;
     EHttpGet "https://www.reddit.com/r/pics/comments/1.json"]
  /\ raises (snd (analyze_post (lib := reference_lib)
                               (serving_and_answering "[1, 2]")
                               image_post_request []))
            TypeError.
Proof.
  apply (analyze_post_non_object_reply (lib := reference_lib)
           (serving_and_answering "[1, 2]") image_post_request []
           [EHttpGet "https://www.reddit.com/r/pics/comments/1.json"]
           [EMessagesCreate image_post_message;
            EHttpGet "https://www.reddit.com/r/pics/comments/1.json"]
           image_post_scraped (PList [PInt 1; PInt 2]));
    [discriminate | reflexivity | left; reflexivity | reflexivity | reflexivity
     | discriminate].
Defined.

(** The same post: its images alone send it to the model. *)
Lemma analyze_post_with_media_calls_model_witness :
  fst (analyze_post (lib := reference_lib) (serving_and_answering ok_object)
                    image_post_request [])
  = [EMessagesCreate image_post_message;
     EHttpGet "https://www.reddit.com/r/pics/comments/1.json"].
Proof.
  apply (analyze_post_with_media_calls_model (lib := reference_lib)
           (serving_and_answering ok_object) image_post_request []
           [EHttpGet "https://www.reddit.com/r/pics/comments/1.json"]
           image_post_scraped);
    [discriminate | reflexivity | left; reflexivity | left; discriminate].
Defined.
